(** * AutoPunkte: the Payback coupon activator, embedded in Rocq

    The development follows the three source files that carry the
    behaviour of the program:

    - [src/payback_activator.py]: [PaybackActivator.__init__],
      [_load_config], [activate_coupons_for_partner], [run], [main_async],
      together with the JavaScript that [activate_coupons_for_partner]
      sends to the page;
    - [src/notifier.py]: [Notifier.notify] and its helpers;
    - [activate.py]: [main].

    Python values are the inductive [pyval]; a Python [dict] with string
    keys is a [gmap string pyval], whose equality is the equality of
    Python dicts.  Numbers are integers: the counters that the activation
    script stores are integers, and floating point is left out of the
    model.  The configuration is typed (a list of merchants, each a dict
    from strings to strings, and a dict of options).

    The browser, the file system and the clock are the environment.  Every
    call the program makes to them is appended to a trace, and an oracle
    decides, from the trace so far and the call, whether the call returns
    a value or raises.  Code runs in the monad [M]: a function from the
    trace to a result ([Ok] or [Raise]) and the extended trace.

    Library functions that the program only calls ([json.loads], [str] on
    a value) are parameters of the development. *)

From stdpp Require Import base option list strings pretty gmap.
From Stdlib Require Import ZArith Lia.

Set Default Proof Using "Type".
Open Scope Z_scope.

(** ** Python values *)

#[warnings="-register-all"]
Inductive pyval :=
| PNone
| PBool (b : bool)
| PInt (z : Z)
| PStr (s : string)
| PList (l : list pyval)
| PDict (d : gmap string pyval).

(** An exception is represented by the text that [str(e)] gives. *)
Definition exn := string.

Inductive result (A : Type) :=
| Ok (a : A)
| Raise (e : exn).
Arguments Ok {A} a.
Arguments Raise {A} e.

#[export] Instance result_ret : MRet result := λ A a, Ok a.
#[export] Instance result_bind : MBind result := λ A B f r,
  match r with
  | Ok a => f a
  | Raise e => Raise e
  end.

(** The double quote, for the few texts that contain one. *)
Definition dquote : string := String (Ascii.ascii_of_nat 34) EmptyString.
Definition newline : string := String (Ascii.ascii_of_nat 10) EmptyString.

(** [bool(v)]: the truth value of a Python value. *)
Definition truthy (v : pyval) : bool :=
  match v with
  | PNone => false
  | PBool b => b
  | PInt z => negb (z =? 0)
  | PStr s => negb (String.eqb s EmptyString)
  | PList l => match l with [] => false | _ => true end
  | PDict d => negb (bool_decide (d = ∅))
  end.

(** [a and b], [a or b]: Python returns one of the operands. *)
Definition py_and (a b : pyval) : pyval := if truthy a then b else a.
Definition py_or (a b : pyval) : pyval := if truthy a then a else b.

(** [type(v).__name__] *)
Definition type_name (v : pyval) : string :=
  match v with
  | PNone => "NoneType"
  | PBool _ => "bool"
  | PInt _ => "int"
  | PStr _ => "str"
  | PList _ => "list"
  | PDict _ => "dict"
  end.

(** [d.get(k, dflt)] on a dict. *)
Definition dict_get (d : gmap string pyval) (k : string) (dflt : pyval) : pyval :=
  default dflt (d !! k).

(** [v.get(k, dflt)] on an arbitrary value: only a dict has the method. *)
Definition py_get (v : pyval) (k : string) (dflt : pyval) : result pyval :=
  match v with
  | PDict d => Ok (dict_get d k dflt)
  | _ => Raise ("'" +:+ type_name v +:+ "' object has no attribute 'get'")
  end.

(** [d[k]] on a dict: [KeyError] when the key is absent. *)
Definition dict_item (d : gmap string pyval) (k : string) : result pyval :=
  match d !! k with
  | Some v => Ok v
  | None => Raise ("'" +:+ k +:+ "'")
  end.

(** [len(v)] *)
Definition py_len (v : pyval) : result Z :=
  match v with
  | PStr s => Ok (Z.of_nat (String.length s))
  | PList l => Ok (Z.of_nat (length l))
  | PDict d => Ok (Z.of_nat (size d))
  | _ => Raise ("object of type '" +:+ type_name v +:+ "' has no len()")
  end.

(** [total += v] for an integer accumulator [total]: a [bool] is an
    integer in Python, anything else that is not a number raises
    [TypeError]. *)
Definition int_iadd (total : Z) (v : pyval) : result Z :=
  match v with
  | PInt z => Ok (total + z)
  | PBool b => Ok (total + (if b then 1 else 0))
  | _ => Raise ("unsupported operand type(s) for +=: 'int' and '"
                +:+ type_name v +:+ "'")
  end.

(** [for item in v]: the items that the loop visits.  The keys of a dict
    come in the order of the map. *)
Fixpoint characters (s : string) : list pyval :=
  match s with
  | EmptyString => []
  | String c rest => PStr (String c EmptyString) :: characters rest
  end.

Definition py_iter (v : pyval) : result (list pyval) :=
  match v with
  | PList l => Ok l
  | PStr s => Ok (characters s)
  | PDict d => Ok (PStr <$> (map_to_list d).*1)
  | _ => Raise ("'" +:+ type_name v +:+ "' object is not iterable")
  end.

(** ** The environment and the monad *)

Inductive level := DEBUG | INFO | WARNING | ERROR | CRITICAL.

(** The scripts that the program sends to the page.  The two login
    scripts embed the credential in their text. *)
Inductive script :=
| StealthScript                       (* run, lines 364-375 *)
| UsernameScript (username : string)  (* run, lines 403-446 *)
| ContinueScript                      (* run, lines 457-501 *)
| PasswordScript (password : string)  (* run, lines 513-565 *)
| LoginClickScript                    (* run, lines 576-620 *)
| LoginProbeScript                    (* run, lines 632-648 *)
| ActivationScript                    (* lines 88-226 *)
| CollectResultsScript                (* lines 232-242 *)
| ReadResultsJSON.                    (* line 245 *)

Record options := {
  arguments : list string;
  binary_location : option string
}.

Inductive call :=
| ReadConfig (path : string)
| ChromeEnter (o : options)
| ChromeExit
| BrowserStart
| GetPage
| GoTo (url : string)
| ExecuteScript (s : script)
| FindElement (xpath : string)
| Click
| Sleep (seconds : Z)
| Screenshot (path : string)
| GetScreenshot (path : string)
| PageSource
| WriteFile (path : string) (content : pyval)
| JsonDump (path : string) (content : pyval)
| Log (lvl : level) (msg : string)
| Stdout (msg : string).

Definition trace := list call.

Definition M (A : Type) : Type := trace → result A * trace.

#[export] Instance M_ret : MRet M := λ A a t, (Ok a, t).
#[export] Instance M_bind : MBind M := λ A B f m t,
  match m t with
  | (Ok a, t') => f a t'
  | (Raise e, t') => (Raise e, t')
  end.

(** [raise e] *)
Definition raise {A} (e : exn) : M A := λ t, (Raise e, t).

(** Lift a pure computation that may raise. *)
Definition lift {A} (r : result A) : M A := λ t, (r, t).

(** [try: body  except Exception as e: handler e] *)
Definition try_except {A} (body : M A) (handler : exn → M A) : M A := λ t,
  match body t with
  | (Ok a, t') => (Ok a, t')
  | (Raise e, t') => handler e t'
  end.

(** Calls that cannot fail leave their mark on the trace only. *)
Definition emit (c : call) : M unit := λ t, (Ok tt, t ++ [c]).
Definition log (lvl : level) (msg : string) : M unit := emit (Log lvl msg).
Definition sleep (seconds : Z) : M unit := emit (Sleep seconds).
Definition print (msg : string) : M unit := emit (Stdout msg).

(** The configuration document: [merchants] is a list of dicts with the
    keys [name] and [partner_id], [options] a dict.  Either key may be
    absent from the document. *)
Abbreviation merchant := (gmap string string).

Record configuration := {
  cfg_merchants : option (list merchant);
  cfg_options : option (gmap string pyval)
}.

(** The environment of a run.  [respond] answers the calls to the browser
    and to the file system from the trace so far; [clock] is the text that
    [datetime.now().strftime(...)] (or [isoformat()]) gives; [yaml_file] is
    what [open] followed by [yaml.safe_load] gives for a path; [environ] is
    [os.environ].  [json_loads] and [py_str] are the library functions
    [json.loads] and [str]. *)
Record environment := {
  respond : trace → call → result pyval;
  clock : trace → string;
  yaml_file : string → result configuration;
  environ : string → option string;
  json_loads : pyval → result pyval;
  py_str : pyval → string
}.

(** A call that the environment may answer with an exception. *)
Definition request (E : environment) (c : call) : M pyval :=
  λ t, (respond E t c, t ++ [c]).

Definition now (E : environment) : M string := λ t, (Ok (clock E t), t).

(** [os.environ.get(k) == v] *)
Definition environ_is (E : environment) (k v : string) : bool :=
  bool_decide (environ E k = Some v).

(** Truth value of an optional string ([None] or a [str]). *)
Definition str_truthy (o : option string) : bool :=
  match o with
  | Some s => negb (String.eqb s EmptyString)
  | None => false
  end.

(** [a or b] on optional strings. *)
Definition str_or (a b : option string) : option string :=
  if str_truthy a then a else b.

(** ** src/payback_activator.py *)

Module PaybackActivator.

(** The attributes that [__init__] sets (lines 44-57). *)
Record t := {
  username : string;
  password : string;
  config_path : string;
  headless : bool;
  config : configuration;
  is_github_actions : bool;
  debug_mode : bool;
  chrome_path : option string
}.

Section WithEnvironment.
Context (E : environment).

(** [_load_config], lines 59-66.  [__init__] calls it before it sets
    [self.logger], so the handler's [self.logger.error] raises
    [AttributeError] and the default configuration of line 66 is never
    returned. *)
Definition _load_config (config_path : string) : M configuration :=
  emit (ReadConfig config_path);;
  try_except (lift (yaml_file E config_path))
    (λ e, raise "'PaybackActivator' object has no attribute 'logger'").

(** [__init__], lines 44-57. *)
Definition __init__ (username password config_path : string) (headless : bool)
  : M t :=
  cfg ← _load_config config_path;
  mret {| username := username;
          password := password;
          config_path := config_path;
          headless := headless;
          config := cfg;
          is_github_actions := environ_is E "GITHUB_ACTIONS" "true";
          debug_mode := environ_is E "DEBUG" "1";
          chrome_path := environ E "CHROME_PATH" |}.

(** *** [activate_coupons_for_partner], lines 68-308 *)

(** The dict returned on success, lines 273-280. *)
Definition success_outcome (partner_name partner_id : string)
    (results : gmap string pyval) : gmap string pyval :=
  {[ "partner_name" := PStr partner_name;
     "partner_id" := PStr partner_id;
     "activated" := dict_get results "activated" (PInt 0);
     "total" := dict_get results "total" (PInt 0);
     "success" := PBool true;
     "alreadyActivated" := dict_get results "alreadyActivated" (PBool false) ]}.

(** The dict returned on failure, lines 285-290, 295-300 and 303-308. *)
Definition failure_outcome (partner_name partner_id : string) (error : pyval)
  : gmap string pyval :=
  {[ "partner_name" := PStr partner_name;
     "partner_id" := PStr partner_id;
     "error" := error;
     "success" := PBool false ]}.

(** Lines 251-261: the text handed to [json.loads] and its parse.  The
    envelope of pydoll is a dict with a [result] key; the JSON text is
    under [result], [result], [value]. *)
Definition parse_results (results_json : pyval) : result pyval :=
  match results_json with
  | PDict d =>
      if bool_decide (is_Some (d !! "result")) then
        match py_get (dict_get d "result" (PDict ∅)) "result" (PDict ∅) with
        | Ok inner =>
            match py_get inner "value" (PStr "{}") with
            | Ok json_str => json_loads E json_str
            | Raise e => Raise e
            end
        | Raise e => Raise e
        end
      else json_loads E results_json
  | _ => json_loads E results_json
  end.

(** Lines 263-290: the outcome for parsed results.  [results.get] raises
    when the parsed value is not a dict. *)
Definition outcome_of_results (partner_name partner_id : string)
    (results : pyval) : M (gmap string pyval) :=
  match results with
  | PDict r =>
      if truthy (dict_get r "success" PNone) then
        (if truthy (dict_get r "alreadyActivated" PNone) then
           log INFO ("No new coupons to activate for " +:+ partner_name
                     +:+ " - they may already be activated")
         else
           log INFO ("Successfully activated "
                     +:+ py_str E (dict_get r "activated" PNone)
                     +:+ " out of " +:+ py_str E (dict_get r "total" PNone)
                     +:+ " coupons for " +:+ partner_name));;
        mret (success_outcome partner_name partner_id r)
      else
        log ERROR ("Activation failed for " +:+ partner_name +:+ ": "
                   +:+ py_str E (dict_get r "error" (PStr "Unknown error")));;
        mret (failure_outcome partner_name partner_id
                (dict_get r "error" (PStr "Unknown error")))
  | _ => raise ("'" +:+ type_name results +:+ "' object has no attribute 'get'")
  end.

(** Lines 247-308: from the retrieved value to the outcome. *)
Definition process_results (partner_name partner_id : string)
    (results_json : pyval) : M (gmap string pyval) :=
  if truthy results_json then
    try_except
      (results ← lift (parse_results results_json);
       outcome_of_results partner_name partner_id results)
      (λ e,
        log ERROR ("Error processing activation results for "
                   +:+ partner_name +:+ ": " +:+ e);;
        mret (failure_outcome partner_name partner_id (PStr e)))
  else
    log ERROR ("Failed to get activation results for " +:+ partner_name);;
    mret (failure_outcome partner_name partner_id
            (PStr "Failed to get activation results")).

(** Lines 70-245: navigation, the settle delay, the three scripts; the
    value of the last script is returned. *)
Definition coupons_url (partner_id : string) : string :=
  "https://www.payback.de/coupons?partnerId=" +:+ partner_id.

Definition retrieve_results (self : t) (partner_name partner_id : string)
  : M pyval :=
  log INFO ("Activating coupons for " +:+ partner_name
            +:+ " (ID: " +:+ partner_id +:+ ")...");;
  request E (GoTo (coupons_url partner_id));;
  let wait_time := if is_github_actions self then 15 else 5 in
  log INFO ("Waiting " +:+ py_str E (PInt wait_time)
            +:+ " seconds for coupons to load...");;
  sleep wait_time;;
  (if debug_mode self || is_github_actions self then
     stamp ← now E;
     let debug_screenshot :=
       "payback_debug_" +:+ partner_name +:+ "_" +:+ stamp +:+ ".png" in
     request E (Screenshot debug_screenshot);;
     log INFO ("Debug screenshot saved to " +:+ debug_screenshot)
   else mret tt);;
  log INFO "Attempting to activate all coupons...";;
  request E (ExecuteScript ActivationScript);;
  sleep 2;;
  request E (ExecuteScript CollectResultsScript);;
  request E (ExecuteScript ReadResultsJSON).

Definition activate_coupons_for_partner (self : t)
    (partner_name partner_id : string) : M (gmap string pyval) :=
  results_json ← retrieve_results self partner_name partner_id;
  process_results partner_name partner_id results_json.

(** *** [run], lines 310-759 *)

(** Lines 322-357: the options of the browser. *)
Definition browser_options (self : t) : M options :=
  let a1 := if headless self && negb (is_github_actions self)
            then ["--headless=new"] else [] in
  let a2 := a1 ++ ["--no-sandbox"; "--disable-dev-shm-usage"; "--disable-gpu";
                   "--disable-extensions"; "--disable-popup-blocking";
                   "--disable-notifications"; "--disable-infobars";
                   "--window-size=1920,1080";
                   "--user-agent=Mozilla/5.0 (Windows NT 10.0; Win64; x64) AppleWebKit/537.36 (KHTML, like Gecko) Chrome/134.0.0.0 Safari/537.36"] in
  let a3 := if headless self
            then a2 ++ ["--headless"]
                    ++ (if is_github_actions self
                        then ["--disable-web-security"] else [])
            else a2 in
  if is_github_actions self && str_truthy (chrome_path self) then
    log INFO ("Using pre-installed Chrome at: "
              +:+ default EmptyString (chrome_path self));;
    mret {| arguments := a3; binary_location := chrome_path self |}
  else
    mret {| arguments := a3; binary_location := None |}.

(** [async with Chrome(options=...) as browser]: the browser is torn down
    on every exit path, and an exception of the body propagates after
    the teardown. *)
Definition with_chrome {A} (o : options) (body : M A) : M A := λ t,
  match request E (ChromeEnter o) t with
  | (Raise e, t1) => (Raise e, t1)
  | (Ok _, t1) =>
      let '(r, t2) := body t1 in
      match request E ChromeExit t2 with
      | (Ok _, t3) => (r, t3)
      | (Raise e, t3) => (Raise e, t3)
      end
  end.

(** Lines 385-393: the cookie banner.  A failure is logged and the flow
    goes on. *)
Definition handle_cookie_consent : M unit :=
  try_except
    (request E (FindElement ("//*[@id=" +:+ dquote
                             +:+ "onetrust-reject-all-handler" +:+ dquote
                             +:+ "]"));;
     request E Click;;
     log INFO "Clicked cookie consent button";;
     sleep 2)
    (λ e, log WARNING ("Could not find or click cookie button: " +:+ e)).

(** Lines 360-626: from the start of the browser to the click on the
    login button.  None of the script calls is inside a [try]. *)
Definition login_steps (self : t) : M unit :=
  request E BrowserStart;;
  request E GetPage;;
  request E (ExecuteScript StealthScript);;
  log INFO "Navigating to Payback login page...";;
  request E (GoTo "https://www.payback.de/login");;
  sleep 5;;
  log INFO "Page loaded, looking for cookie consent...";;
  handle_cookie_consent;;
  sleep 3;;
  log INFO "Attempting to interact with login form...";;
  log INFO "Accessing username input through nested shadow DOM...";;
  request E (ExecuteScript (UsernameScript (username self)));;
  log INFO "Successfully entered username";;
  sleep 2;;
  log INFO "Clicking continue button...";;
  request E (ExecuteScript ContinueScript);;
  log INFO "Clicked continue button";;
  log INFO "Waiting for password page to load...";;
  sleep 5;;
  log INFO "Accessing password input through nested shadow DOM...";;
  request E (ExecuteScript (PasswordScript (password self)));;
  log INFO "Successfully entered password";;
  sleep 2;;
  log INFO "Clicking login button...";;
  request E (ExecuteScript LoginClickScript);;
  log INFO "Clicked login button";;
  log INFO "Waiting for login to complete...";;
  sleep 5;;
  log INFO "Checking login status...".

(** Lines 630-659: the probe for the markers of a completed login.  The
    handler returns the aggregate of lines 655-659 from [run]; here the
    returned value is [Some] of that aggregate, and [None] when the flow
    goes on. *)
Definition login_failed_result (e : exn) : gmap string pyval :=
  {[ "successful" := PList [];
     "failed" := PList [];
     "error" := PStr ("Login failed: " +:+ e) ]}.

Definition check_login_status : M (option (gmap string pyval)) :=
  try_except
    (request E (ExecuteScript LoginProbeScript);;
     log INFO "Login completed.";;
     sleep 5;;
     mret None)
    (λ e,
      log ERROR ("Error checking login status: " +:+ e);;
      mret (Some (login_failed_result e))).

(** The three lists of lines 662-664. *)
Record outcomes := {
  activation_results : list (gmap string pyval);
  successful : list (gmap string pyval);
  failed : list (gmap string pyval)
}.

(** The dict appended at lines 674-680. *)
Definition no_partner_id_outcome (merchant_name : string) : gmap string pyval :=
  {[ "partner_name" := PStr merchant_name;
     "error" := PStr "No partner_id specified";
     "success" := PBool false ]}.

(** [result.get("success", False)] as a truth value. *)
Definition succeeded (result : gmap string pyval) : bool :=
  truthy (dict_get result "success" (PBool false)).

(** Lines 667-668: [merchant.get("name", "Unknown")] and
    [merchant.get("partner_id", "")]. *)
Definition name_of (merchant : merchant) : string :=
  default "Unknown" (merchant !! "name").
Definition partner_id_of (merchant : merchant) : string :=
  default EmptyString (merchant !! "partner_id").

(** Lines 666-695: the loop over the merchants. *)
Fixpoint process_merchants (self : t) (merchants : list merchant)
    (acc : outcomes) : M outcomes :=
  match merchants with
  | [] => mret acc
  | merchant :: rest =>
      let merchant_name := name_of merchant in
      let partner_id := partner_id_of merchant in
      if negb (truthy (PStr partner_id)) then
        log WARNING ("Skipping " +:+ merchant_name
                     +:+ ": No partner_id specified");;
        process_merchants self rest
          {| activation_results := activation_results acc;
             successful := successful acc;
             failed := failed acc ++ [no_partner_id_outcome merchant_name] |}
      else
        result ← activate_coupons_for_partner self merchant_name partner_id;
        let acc' :=
          if succeeded result then
            {| activation_results := activation_results acc ++ [result];
               successful := successful acc ++ [result];
               failed := failed acc |}
          else
            {| activation_results := activation_results acc ++ [result];
               successful := successful acc;
               failed := failed acc ++ [result] |} in
        sleep 2;;
        process_merchants self rest acc'
  end.

(** Lines 699-719: the totals over [activation_results]. *)
Fixpoint summarize (results : list (gmap string pyval))
    (total_activated total_available : Z) : M (Z * Z) :=
  match results with
  | [] => mret (total_activated, total_available)
  | result :: rest =>
      let partner_name := dict_get result "partner_name" (PStr "Unknown") in
      if succeeded result then
        let activated := dict_get result "activated" (PInt 0) in
        let total := dict_get result "total" (PInt 0) in
        total_activated' ← lift (int_iadd total_activated activated);
        total_available' ← lift (int_iadd total_available total);
        (if truthy (dict_get result "alreadyActivated" (PBool false)) then
           log INFO ("✅ " +:+ py_str E partner_name
                     +:+ ": No new coupons to activate (may already be activated)")
         else
           log INFO ("✅ " +:+ py_str E partner_name +:+ ": Activated "
                     +:+ py_str E activated +:+ " out of " +:+ py_str E total
                     +:+ " coupons"));;
        summarize rest total_activated' total_available'
      else
        let error := dict_get result "error" (PStr "Unknown error") in
        log ERROR ("❌ " +:+ py_str E partner_name +:+ ": Failed - "
                   +:+ py_str E error);;
        summarize rest total_activated total_available
  end.

(** Lines 726-739: the overview page, its screenshot and its markup. *)
Definition fetch_evidence : M (string * string * pyval) :=
  log INFO (newline +:+ "===== ACTIVATED COUPONS OVERVIEW =====");;
  request E (GoTo "https://www.payback.de/coupons?partnerId=");;
  sleep 5;;
  timestamp ← now E;
  let screenshot_path := "payback_coupons_" +:+ timestamp +:+ ".png" in
  request E (GetScreenshot screenshot_path);;
  log INFO ("Screenshot saved to " +:+ screenshot_path);;
  let html_path := "payback_coupons_" +:+ timestamp +:+ ".html" in
  html_content ← request E PageSource;
  mret (screenshot_path, html_path, html_content).

(** Lines 741-747: the write of the markup file, the only step of the
    evidence that is inside a [try]. *)
Definition save_html (html_path : string) (html_content : pyval) : M unit :=
  try_except
    (request E (WriteFile html_path html_content);;
     log INFO ("HTML content saved to " +:+ html_path))
    (λ e, log ERROR ("Error saving HTML content: " +:+ e)).

(** Lines 726-749. *)
Definition capture_evidence : M (string * string) :=
  evidence ← fetch_evidence;
  save_html evidence.1.2 evidence.2;;
  log INFO "===== END OF ACTIVATED COUPONS OVERVIEW =====";;
  mret (evidence.1.1, evidence.1.2).

(** The dict returned at lines 752-759. *)
Definition run_summary (acc : outcomes) (total_activated total_available : Z)
    (screenshot_path html_path : string) : gmap string pyval :=
  {[ "successful" := PList (PDict <$> successful acc);
     "failed" := PList (PDict <$> failed acc);
     "total_activated" := PInt total_activated;
     "total_available" := PInt total_available;
     "screenshot_path" := PStr screenshot_path;
     "html_path" := PStr html_path ]}.

(** Lines 661-724: the loop over the merchants and the summary. *)
Definition tally (self : t) (merchants : list merchant)
  : M (outcomes * (Z * Z)) :=
  acc ← process_merchants self merchants
         {| activation_results := []; successful := []; failed := [] |};
  log INFO (newline +:+ "===== ACTIVATION SUMMARY =====");;
  totals ← summarize (activation_results acc) 0 0;
  log INFO (newline +:+ "Total: Activated " +:+ py_str E (PInt totals.1)
            +:+ " out of " +:+ py_str E (PInt totals.2)
            +:+ " coupons across "
            +:+ py_str E (PInt (Z.of_nat (length merchants)))
            +:+ " merchants");;
  log INFO "===== END OF SUMMARY =====";;
  mret (acc, totals).

(** Lines 661-759: what [run] does once the login is over. *)
Definition activation_workflow (self : t) (merchants : list merchant)
  : M (gmap string pyval) :=
  tallied ← tally self merchants;
  paths ← capture_evidence;
  mret (run_summary tallied.1 tallied.2.1 tallied.2.2 paths.1 paths.2).

(** The dict returned at line 318. *)
Definition no_merchants_result : gmap string pyval :=
  {[ "successful" := PList [];
     "failed" := PList [];
     "error" := PStr "No merchants configured" ]}.

(** Lines 360-759: the body of the [async with]. *)
Definition session (self : t) (merchants : list merchant)
  : M (gmap string pyval) :=
  login_steps self;;
  aborted ← check_login_status;
  match aborted with
  | Some early => mret early
  | None => activation_workflow self merchants
  end.

(** Lines 320-357: the announcement and the options. *)
Definition prepare (self : t) (merchants : list merchant) : M options :=
  log INFO ("Found " +:+ py_str E (PInt (Z.of_nat (length merchants)))
            +:+ " merchants in configuration");;
  browser_options self.

Definition run (self : t) : M (gmap string pyval) :=
  let merchants := default [] (cfg_merchants (config self)) in
  match merchants with
  | [] =>
      log WARNING
        "No merchants found in config. Please add at least one merchant.";;
      mret no_merchants_result
  | _ =>
      opts ← prepare self merchants;
      with_chrome opts (session self merchants)
  end.

(** [main_async], lines 762-765. *)
Definition main_async (username password config_path : string)
    (headless : bool) : M (gmap string pyval) :=
  activator ← __init__ username password config_path headless;
  run activator.

End WithEnvironment.
End PaybackActivator.

(** ** The activation script, lines 89-225 of src/payback_activator.py

    The script runs in the page.  The document is the state [dom]; the
    queries of the DOM API are the fields of [dom_api], and a click may
    change the document.  The object that the script assigns to
    [window.activationResults] is given as the dict that [json.loads]
    yields for its [JSON.stringify] text (lines 232-261).  The [console.log]
    diagnostics of the loop over the coupons are the [coupon_status] of
    each coupon.  No statement inside the [try] of lines 139-213 throws
    on these operations, so the [catch] has no case in the model. *)

Module ActivationScript.

Record dom_api (dom node : Type) := {
  document_querySelector : dom → string → option node;
  shadowRoot : dom → node → option node;
  querySelector : dom → node → string → option node;
  querySelectorAll : dom → node → string → list node;
  textContent : dom → node → string;
  toLowerCase : string → string;
  click : dom → node → dom;
  body_innerHTML : dom → string;
  location_href : dom → string;
  document_title : dom → string
}.
Arguments document_querySelector {dom node}.
Arguments shadowRoot {dom node}.
Arguments querySelector {dom node}.
Arguments querySelectorAll {dom node}.
Arguments textContent {dom node}.
Arguments toLowerCase {dom node}.
Arguments click {dom node}.
Arguments body_innerHTML {dom node}.
Arguments location_href {dom node}.
Arguments document_title {dom node}.

(** [hay.includes(needle)] *)
Fixpoint includes (hay needle : string) : bool :=
  String.prefix needle hay ||
  match hay with
  | EmptyString => false
  | String _ rest => includes rest needle
  end.

(** Lines 112-117. *)
Definition selectors : list string :=
  [ "div > div.coupon-center__container > div.coupon-center__published-column.column--double > div.coupon-center__container-published-coupons";
    "div > div.coupon-center__container > div.coupon-center__published-column > div.coupon-center__container-published-coupons";
    "div.coupon-center__container div.coupon-center__container-published-coupons";
    "div.coupon-center__published-column div.coupon-center__container-published-coupons" ].

(** Lines 142-145. *)
Definition callToActionSelectors : list string :=
  [ "div > pbc-coupon-call-to-action"; "pbc-coupon-call-to-action" ].

(** Lines 154-159. *)
Definition buttonSelectors : list string :=
  [ "div > button.coupon-call-to-action__button.coupon__activate-button.not-activated";
    "button.coupon-call-to-action__button.coupon__activate-button.not-activated";
    "button.not-activated";
    "button:not(.activated)" ].

(** Lines 188-192. *)
Definition activatedButtonSelectors : list string :=
  [ "div > button.coupon-call-to-action__button.coupon__activate-button.activated";
    "button.coupon-call-to-action__button.activated";
    "button.activated" ].

Inductive coupon_status :=
| Clicked             (* line 185 *)
| AlreadyActivated    (* line 200 *)
| ButtonNotFound      (* line 202 *)
| NoCallToAction      (* line 206 *)
| NoShadowRoot.       (* line 209 *)

Section Script.
Context {dom node : Type} (api : dom_api dom node).

(** [for (j = 0; j < candidates.length && !found; j++)
       found = root.querySelector(candidates[j])] *)
Fixpoint first_match (d : dom) (root : node) (candidates : list string)
  : option node :=
  match candidates with
  | [] => None
  | candidate :: rest =>
      match querySelector api d root candidate with
      | Some found => Some found
      | None => first_match d root rest
      end
  end.

(** Lines 161-179: the button to click, by selector and then by text. *)
Definition find_button (d : dom) (root : node) : option node :=
  match first_match d root buttonSelectors with
  | Some button => Some button
  | None =>
      List.find
        (λ b, includes (toLowerCase api (textContent api d b)) "aktivieren")
        (querySelectorAll api d root "button")
  end.

(** Lines 138-213: one turn of the loop over the coupons. *)
Definition process_coupon (d : dom) (coupon : node) : dom * coupon_status :=
  match shadowRoot api d coupon with
  | Some coupon_root =>
      match first_match d coupon_root callToActionSelectors with
      | Some callToAction =>
          match shadowRoot api d callToAction with
          | Some action_root =>
              match find_button d action_root with
              | Some button => (click api d button, Clicked)
              | None =>
                  match first_match d action_root activatedButtonSelectors with
                  | Some _ => (d, AlreadyActivated)
                  | None => (d, ButtonNotFound)
                  end
              end
          | None => (d, NoCallToAction)
          end
      | None => (d, NoCallToAction)
      end
  | None => (d, NoShadowRoot)
  end.

(** Lines 134-214: the loop, with [activatedCount] and the diagnostics. *)
Fixpoint process_coupons (d : dom) (coupons : list node) (activatedCount : Z)
  : dom * Z * list coupon_status :=
  match coupons with
  | [] => (d, activatedCount, [])
  | coupon :: rest =>
      let '(d', status) := process_coupon d coupon in
      let count := match status with
                   | Clicked => activatedCount + 1
                   | _ => activatedCount
                   end in
      let '(d'', total, log) := process_coupons d' rest count in
      (d'', total, status :: log)
  end.

(** Lines 94-100. *)
Definition debugInfo (d : dom) : gmap string pyval :=
  let center := document_querySelector api d "#coupon-center" in
  {[ "hasCouponCenter" := PBool (bool_decide (is_Some center));
     "hasShadowRoot" :=
       PBool (bool_decide (is_Some (center ≫= shadowRoot api d)));
     "bodyContent" := PStr (String.substring 0 1000 (body_innerHTML api d));
     "urlPath" := PStr (location_href api d);
     "title" := PStr (document_title api d) ]}.

(** The whole script: the document after it, the value of
    [window.activationResults], and the diagnostics of the coupons. *)
Definition activation_script (d : dom)
  : dom * gmap string pyval * list coupon_status :=
  match document_querySelector api d "#coupon-center" ≫= shadowRoot api d with
  | None =>
      (d, {[ "success" := PBool false;
             "error" := PStr "Coupon center not found";
             "activated" := PInt 0;
             "total" := PInt 0;
             "debugInfo" := PDict (debugInfo d) ]}, [])
  | Some center_root =>
      match first_match d center_root selectors with
      | None =>
          (d, {[ "success" := PBool true;
                 "error" := PStr "No coupons to activate";
                 "activated" := PInt 0;
                 "total" := PInt 0;
                 "alreadyActivated" := PBool true ]}, [])
      | Some couponContainer =>
          let coupons := querySelectorAll api d couponContainer "pbc-coupon" in
          let '(d', activatedCount, log) := process_coupons d coupons 0 in
          (d', {[ "success" := PBool true;
                  "activated" := PInt activatedCount;
                  "total" := PInt (Z.of_nat (length coupons)) ]}, log)
      end
  end.

(** The page state of a coupon whose button is in the activated state:
    its call to action has no button that the script would click (none
    for the selectors of lines 154-159, none with the text of line 173)
    and has a button for the selectors of lines 188-192. *)
Definition already_activated (d : dom) (coupon : node) : bool :=
  match shadowRoot api d coupon with
  | Some coupon_root =>
      match first_match d coupon_root callToActionSelectors with
      | Some callToAction =>
          match shadowRoot api d callToAction with
          | Some action_root =>
              forallb (λ s, bool_decide (querySelector api d action_root s = None))
                      buttonSelectors
              && forallb
                   (λ b, negb (includes (toLowerCase api (textContent api d b))
                                        "aktivieren"))
                   (querySelectorAll api d action_root "button")
              && existsb
                   (λ s, bool_decide (is_Some (querySelector api d action_root s)))
                   activatedButtonSelectors
          | None => false
          end
      | None => false
      end
  | None => false
  end.

(** The published-coupons container of the coupon center, if both are
    there. *)
Definition coupon_container (d : dom) : option (option node) :=
  center_root ← document_querySelector api d "#coupon-center" ≫= shadowRoot api d;
  Some (first_match d center_root selectors).

(** A page on which every coupon is already activated: the coupon center
    is there, and every coupon of its container, if any, is in the
    activated state. *)
Definition all_activated (d : dom) : bool :=
  match coupon_container d with
  | None => false
  | Some None => true
  | Some (Some couponContainer) =>
      forallb (already_activated d)
              (querySelectorAll api d couponContainer "pbc-coupon")
  end.

End Script.
End ActivationScript.

(** ** src/notifier.py *)

Module Notifier.

(** The attributes that [__init__] sets: [self.options] is all that the
    methods read. *)
Record t := {
  config : configuration;
  options : gmap string pyval
}.

Section WithEnvironment.
Context (E : environment).

(** [_load_config], lines 30-46. *)
Definition _load_config (config_path : string) : M configuration :=
  emit (ReadConfig config_path);;
  try_except (lift (yaml_file E config_path))
    (λ e,
      log ERROR ("Error loading configuration: " +:+ e);;
      mret {| cfg_merchants := None; cfg_options := Some ∅ |}).

(** [__init__], lines 20-28. *)
Definition __init__ (config_path : option string) : M t :=
  cfg ← (if str_truthy config_path
         then _load_config (default EmptyString config_path)
         else mret {| cfg_merchants := None; cfg_options := None |});
  mret {| config := cfg; options := default ∅ (cfg_options cfg) |}.

(** [_should_notify], lines 74-92. *)
Definition _should_notify (self : t) (results : gmap string pyval)
  : result pyval :=
  n_successful ← py_len (dict_get results "successful" (PList []));
  n_failed ← py_len (dict_get results "failed" (PList []));
  let has_successful := PBool (0 <? n_successful) in
  let has_failed := PBool (0 <? n_failed) in
  let notify_on_success :=
    dict_get (options self) "notify_on_success" (PBool true) in
  let notify_on_failure :=
    dict_get (options self) "notify_on_failure" (PBool true) in
  mret (py_or (py_and has_successful notify_on_success)
              (py_and has_failed notify_on_failure)).

(** The two loops of [_create_message], lines 112-115 and 121-124. *)
Fixpoint successful_lines (items : list pyval) : result string :=
  match items with
  | [] => mret EmptyString
  | item :: rest =>
      fallback ← py_get item "merchant" (PStr "Unknown");
      merchant ← py_get item "partner_name" fallback;
      fallback_count ← py_get item "coupons_activated" (PInt 0);
      coupons_activated ← py_get item "activated" fallback_count;
      more ← successful_lines rest;
      mret ("  • " +:+ py_str E merchant +:+ ": "
            +:+ py_str E coupons_activated +:+ " coupons" +:+ newline
            +:+ more)
  end.

Fixpoint failed_lines (items : list pyval) : result string :=
  match items with
  | [] => mret EmptyString
  | item :: rest =>
      fallback ← py_get item "merchant" (PStr "Unknown");
      merchant ← py_get item "partner_name" fallback;
      fallback_reason ← py_get item "reason" (PStr "Unknown error");
      reason ← py_get item "error" fallback_reason;
      more ← failed_lines rest;
      mret ("  • " +:+ py_str E merchant +:+ ": " +:+ py_str E reason
            +:+ newline +:+ more)
  end.

(** [_create_message], lines 94-126. *)
Definition _create_message (results : gmap string pyval) : M string :=
  stamp ← now E;
  let timestamp := dict_get results "timestamp" (PStr stamp) in
  let successful := dict_get results "successful" (PList []) in
  let failed := dict_get results "failed" (PList []) in
  lift (n_successful ← py_len successful;
        items ← py_iter successful;
        lines ← successful_lines items;
        n_failed ← py_len failed;
        failed_items ← py_iter failed;
        more ← failed_lines failed_items;
        mret ("📊 Payback Coupon Activation Report ("
              +:+ py_str E timestamp +:+ ")" +:+ newline +:+ newline
              +:+ "✅ Successfully activated coupons: "
              +:+ py_str E (PInt n_successful) +:+ newline
              +:+ lines +:+ newline
              +:+ "❌ Failed activations: " +:+ py_str E (PInt n_failed)
              +:+ newline +:+ more)).

(** [_log_notification], lines 128-142. *)
Definition rule : string := "==================================================".

Definition _log_notification (message : string) : M unit :=
  log INFO ("Notification message:" +:+ newline +:+ message);;
  print (newline +:+ rule);;
  print "PAYBACK ACTIVATION NOTIFICATION";;
  print rule;;
  print message;;
  print (rule +:+ newline).

(** [_save_results], lines 144-160. *)
Definition _save_results (results : gmap string pyval) : M unit :=
  try_except
    (timestamp ← now E;
     let filename := "activation_results_" +:+ timestamp +:+ ".json" in
     request E (JsonDump filename (PDict results));;
     log INFO ("Results saved to " +:+ filename))
    (λ e, log ERROR ("Error saving results: " +:+ e)).

(** [notify], lines 48-72. *)
Definition notify (self : t) (results : gmap string pyval) : M bool :=
  wanted ← lift (_should_notify self results);
  if negb (truthy wanted) then
    log INFO "Notification skipped based on configuration";;
    mret false
  else
    message ← _create_message results;
    _log_notification message;;
    _save_results results;;
    mret true.

End WithEnvironment.
End Notifier.

(** ** activate.py *)

Module Activate.

(** The parsed command line, lines 25-45. *)
Record args := {
  config : string;
  username : option string;
  password : option string;
  log_level : level;
  no_notify : bool;
  headless : bool
}.

Section WithEnvironment.
Context (E : environment).

(** Lines 56-57. *)
Definition credentials (a : args) : option string * option string :=
  (str_or (username a) (environ E "PAYBACK_USERNAME"),
   str_or (password a) (environ E "PAYBACK_PASSWORD")).

(** The test of line 59. *)
Definition credentials_missing (a : args) : bool :=
  negb (str_truthy (credentials a).1) || negb (str_truthy (credentials a).2).

(** Lines 70-77: the run and the notification. *)
Definition run_and_notify (a : args) : M (gmap string pyval) :=
  results ← PaybackActivator.main_async E
              (default EmptyString (credentials a).1)
              (default EmptyString (credentials a).2)
              (config a) (headless a);
  (if negb (no_notify a) then
     notifier ← Notifier.__init__ E (Some (config a));
     Notifier.notify E notifier results;;
     mret tt
   else mret tt);;
  mret results.

(** Lines 79-88: the exit code for the results. *)
Definition exit_code_of (results : gmap string pyval) : M Z :=
  failed ← lift (dict_item results "failed");
  n_failed ← lift (py_len failed);
  if 0 <? n_failed then
    successful ← lift (dict_item results "successful");
    n_successful ← lift (py_len successful);
    if n_successful =? 0 then
      log ERROR "All coupon activations failed";;
      mret 1
    else
      log WARNING "Some coupon activations failed";;
      mret 0
  else
    log INFO "All coupon activations successful";;
    mret 0.

(** [main], lines 22-92.  The value is the exit status of the process:
    line 64 leaves with [sys.exit(1)], every other path returns the
    status to [sys.exit(main())] of line 96. *)
Definition main (a : args) : M Z :=
  if credentials_missing a then
    log ERROR "Payback credentials not provided. Use --username/--password arguments or PAYBACK_USERNAME/PAYBACK_PASSWORD environment variables";;
    mret 1
  else
    log INFO "Starting AutoPunkte - Payback coupon activator";;
    try_except
      (results ← run_and_notify a;
       exit_code_of results)
      (λ e,
        log ERROR ("Error during coupon activation: " +:+ e);;
        mret 1).

End WithEnvironment.
End Activate.

(** ** Concrete environments

    A browser that answers every call, a clock that stands still, and a
    [json.loads] that knows the texts used in the scenarios. *)

Module Scenario.

Definition quoted (s : string) : string := dquote +:+ s +:+ dquote.

(** [{"success": true, "activated": 3, "total": 5}] *)
Definition text_activated_3_of_5 : string :=
  "{" +:+ quoted "success" +:+ ": true, " +:+ quoted "activated" +:+ ": 3, "
  +:+ quoted "total" +:+ ": 5}".

(** [{"success": false, "error": "Coupon center not found"}] *)
Definition text_center_not_found : string :=
  "{" +:+ quoted "success" +:+ ": false, " +:+ quoted "error" +:+ ": "
  +:+ quoted "Coupon center not found" +:+ "}".

(** [{"success": true, "activated": 0, "total": 1}] *)
Definition text_activated_0_of_1 : string :=
  "{" +:+ quoted "success" +:+ ": true, " +:+ quoted "activated" +:+ ": 0, "
  +:+ quoted "total" +:+ ": 1}".

Definition loads (v : pyval) : result pyval :=
  match v with
  | PStr s =>
      if String.eqb s text_activated_3_of_5 then
        Ok (PDict {[ "success" := PBool true; "activated" := PInt 3;
                     "total" := PInt 5 ]})
      else if String.eqb s text_center_not_found then
        Ok (PDict {[ "success" := PBool false;
                     "error" := PStr "Coupon center not found" ]})
      else if String.eqb s text_activated_0_of_1 then
        Ok (PDict {[ "success" := PBool true; "activated" := PInt 0;
                     "total" := PInt 1 ]})
      else if String.eqb s "{}" then Ok (PDict ∅)
      else Raise "Expecting value: line 1 column 1 (char 0)"
  | _ => Raise ("the JSON object must be str, bytes or bytearray, not "
                +:+ type_name v)
  end.

Definition str (v : pyval) : string :=
  match v with
  | PNone => "None"
  | PBool true => "True"
  | PBool false => "False"
  | PInt z => pretty z
  | PStr s => s
  | PList _ => "[...]"
  | PDict _ => "{...}"
  end.

(** The last page that the browser was sent to. *)
Fixpoint current_url (t : trace) (url : string) : string :=
  match t with
  | [] => url
  | GoTo u :: rest => current_url rest u
  | _ :: rest => current_url rest url
  end.

(** The envelope in which pydoll returns the value of a script. *)
Definition envelope (text : string) : pyval :=
  PDict {[ "id" := PInt 1;
           "result" := PDict {[ "result" :=
             PDict {[ "type" := PStr "string"; "value" := PStr text ]} ]} ]}.

(** Two pages for the activation script.  The nodes are numbers: 0 is
    the coupon center, 1 its shadow root, 2 the container of the
    published coupons, 3 the only coupon, 4 its shadow root, 5 its call
    to action, 6 the shadow root of that, 7 the button, which is in the
    activated state and reads [Aktiviert].  On the second page the coupon
    center has no container. *)
Definition lower_ascii (c : Ascii.ascii) : Ascii.ascii :=
  let n := Ascii.nat_of_ascii c in
  if (Nat.leb 65 n && Nat.leb n 90)%bool
  then Ascii.ascii_of_nat (n + 32) else c.

Fixpoint lower (s : string) : string :=
  match s with
  | EmptyString => EmptyString
  | String c rest => String (lower_ascii c) (lower rest)
  end.

Definition activated_page : ActivationScript.dom_api unit nat :=
  {| ActivationScript.document_querySelector := λ _ sel,
       if String.eqb sel "#coupon-center" then Some 0%nat else None;
     ActivationScript.shadowRoot := λ _ n,
       match n with
       | 0%nat => Some 1%nat
       | 3%nat => Some 4%nat
       | 5%nat => Some 6%nat
       | _ => None
       end;
     ActivationScript.querySelector := λ _ n sel,
       match n with
       | 1%nat =>
           if String.eqb sel "div.coupon-center__container div.coupon-center__container-published-coupons"
           then Some 2%nat else None
       | 4%nat =>
           if String.eqb sel "pbc-coupon-call-to-action"
           then Some 5%nat else None
       | 6%nat =>
           if String.eqb sel "button.activated" then Some 7%nat else None
       | _ => None
       end;
     ActivationScript.querySelectorAll := λ _ n sel,
       match n with
       | 2%nat => if String.eqb sel "pbc-coupon" then [3%nat] else []
       | 6%nat => if String.eqb sel "button" then [7%nat] else []
       | _ => []
       end;
     ActivationScript.textContent := λ _ n,
       match n with
       | 7%nat => "Aktiviert"
       | _ => EmptyString
       end;
     ActivationScript.toLowerCase := lower;
     ActivationScript.click := λ d _, d;
     ActivationScript.body_innerHTML := λ _, "<div id=coupon-center></div>";
     ActivationScript.location_href := λ _,
       "https://www.payback.de/coupons?partnerId=A1";
     ActivationScript.document_title := λ _, "PAYBACK Coupons" |}.

Definition bare_center_page : ActivationScript.dom_api unit nat :=
  {| ActivationScript.document_querySelector := λ _ sel,
       if String.eqb sel "#coupon-center" then Some 0%nat else None;
     ActivationScript.shadowRoot := λ _ n,
       match n with
       | 0%nat => Some 1%nat
       | _ => None
       end;
     ActivationScript.querySelector := λ _ _ _, None;
     ActivationScript.querySelectorAll := λ _ _ _, [];
     ActivationScript.textContent := λ _ _, EmptyString;
     ActivationScript.toLowerCase := lower;
     ActivationScript.click := λ d _, d;
     ActivationScript.body_innerHTML := λ _, "<div id=coupon-center></div>";
     ActivationScript.location_href := λ _,
       "https://www.payback.de/coupons?partnerId=A1";
     ActivationScript.document_title := λ _, "PAYBACK Coupons" |}.

(** A browser whose pages store the given result text, by the partner
    id in the address. *)
Definition browser (pages : string → pyval) (t : trace) (c : call)
  : result pyval :=
  match c with
  | ExecuteScript ReadResultsJSON => Ok (pages (current_url t EmptyString))
  | _ => Ok PNone
  end.

Definition coupons_url := PaybackActivator.coupons_url.

(** Merchant A activates three of five coupons, merchant B has no coupon
    center. *)
Definition mixed_pages (url : string) : pyval :=
  if String.eqb url (coupons_url "A1") then envelope text_activated_3_of_5
  else if String.eqb url (coupons_url "B2") then envelope text_center_not_found
  else PNone.

Definition two_merchants : configuration :=
  {| cfg_merchants := Some [ {[ "name" := "A"; "partner_id" := "A1" ]};
                             {[ "name" := "B"; "partner_id" := "B2" ]} ];
     cfg_options := Some ∅ |}.

(** Merchant C has no partner id; the page of merchant D stores a text
    that is not JSON; the page of merchant F stores nothing. *)
Definition merchant_C : merchant := {[ "name" := "C" ]}.
Definition merchant_D : merchant := {[ "name" := "D"; "partner_id" := "D4" ]}.
Definition merchant_F : merchant := {[ "name" := "F"; "partner_id" := "F6" ]}.

Definition broken_pages (url : string) : pyval :=
  if String.eqb url (coupons_url "D4") then PStr "<html>" else PNone.

Definition only (m : merchant) : configuration :=
  {| cfg_merchants := Some [m]; cfg_options := Some ∅ |}.

(** A browser in which the script that enters the identifier fails. *)
Definition login_breaks (t : trace) (c : call) : result pyval :=
  match c with
  | ExecuteScript (UsernameScript _) => Raise "Cannot read properties of null"
  | _ => browser mixed_pages t c
  end.

(** A browser in which the probe after the login fails. *)
Definition probe_breaks (t : trace) (c : call) : result pyval :=
  match c with
  | ExecuteScript LoginProbeScript => Raise "Target closed"
  | _ => browser mixed_pages t c
  end.

(** A browser that cannot take the screenshot of the overview. *)
Definition screenshot_breaks (t : trace) (c : call) : result pyval :=
  match c with
  | GetScreenshot _ => Raise "Page.captureScreenshot timed out"
  | _ => browser mixed_pages t c
  end.

(** A file system that refuses the markup file. *)
Definition write_breaks (t : trace) (c : call) : result pyval :=
  match c with
  | WriteFile _ _ => Raise "Permission denied"
  | _ => browser mixed_pages t c
  end.

(** A page without the cookie banner. *)
Definition consent_breaks (t : trace) (c : call) : result pyval :=
  match c with
  | FindElement _ => Raise "Element not found"
  | _ => browser mixed_pages t c
  end.

Definition no_merchants : configuration :=
  {| cfg_merchants := Some []; cfg_options := Some ∅ |}.

Definition make (respond : trace → call → result pyval) (cfg : configuration)
  : environment :=
  {| respond := respond;
     clock := λ _, "20250101_120000";
     yaml_file := λ _, Ok cfg;
     environ := λ _, None;
     json_loads := loads;
     py_str := str |}.

Definition mixed : environment := make (browser mixed_pages) two_merchants.

(** The activator that [__init__] builds in a plain environment. *)
Definition activator (cfg : configuration) : PaybackActivator.t :=
  {| PaybackActivator.username := "user@example.org";
     PaybackActivator.password := "secret";
     PaybackActivator.config_path := "config.yaml";
     PaybackActivator.headless := true;
     PaybackActivator.config := cfg;
     PaybackActivator.is_github_actions := false;
     PaybackActivator.debug_mode := false;
     PaybackActivator.chrome_path := None |}.

Definition outcome_A : gmap string pyval :=
  PaybackActivator.success_outcome "A" "A1"
    {[ "success" := PBool true; "activated" := PInt 3; "total" := PInt 5 ]}.

Definition outcome_B : gmap string pyval :=
  PaybackActivator.failure_outcome "B" "B2" (PStr "Coupon center not found").

Definition mixed_summary : gmap string pyval :=
  PaybackActivator.run_summary
    {| PaybackActivator.activation_results := [outcome_A; outcome_B];
       PaybackActivator.successful := [outcome_A];
       PaybackActivator.failed := [outcome_B] |}
    3 5 "payback_coupons_20250101_120000.png"
    "payback_coupons_20250101_120000.html".

Definition mixed_trace : trace :=
  (PaybackActivator.run mixed (activator two_merchants) []).2.

Definition broken : environment := make (browser broken_pages) (only merchant_D).
Definition unidentified : environment :=
  make (browser mixed_pages) (only merchant_C).

Definition empty : environment := make (browser mixed_pages) no_merchants.
Definition merchant_A : merchant := {[ "name" := "A"; "partner_id" := "A1" ]}.
Definition login_broken : environment := make login_breaks (only merchant_A).
Definition probe_broken : environment := make probe_breaks (only merchant_A).
Definition screenshot_broken : environment :=
  make screenshot_breaks (only merchant_A).
Definition write_broken : environment := make write_breaks (only merchant_A).
Definition working : environment := make (browser mixed_pages) (only merchant_A).

Definition consent_broken : environment :=
  make consent_breaks (only merchant_A).

(** The options and the trace with which the browser of merchant A's
    activator is started. *)
Definition entry_options : options :=
  match (PaybackActivator.prepare probe_broken (activator (only merchant_A))
           [merchant_A] []).1 with
  | Ok o => o
  | Raise _ => {| arguments := []; binary_location := None |}
  end.

Definition entry_trace : trace :=
  (PaybackActivator.prepare probe_broken (activator (only merchant_A))
     [merchant_A] []).2.

(** Merchant A's loop and summary when the markup file cannot be
    written, and the evidence fetched after them. *)
Definition tallied : PaybackActivator.outcomes * (Z * Z) :=
  ({| PaybackActivator.activation_results := [outcome_A];
      PaybackActivator.successful := [outcome_A];
      PaybackActivator.failed := [] |}, (3, 5)).

Definition tallied_trace : trace :=
  (PaybackActivator.tally write_broken (activator (only merchant_A))
     [merchant_A] []).2.

Definition evidence : string * string * pyval :=
  ("payback_coupons_20250101_120000.png",
   "payback_coupons_20250101_120000.html", PNone).

Definition evidence_trace : trace :=
  (PaybackActivator.fetch_evidence write_broken tallied_trace).2.

Definition summary_A : gmap string pyval :=
  PaybackActivator.run_summary tallied.1 3 5
    "payback_coupons_20250101_120000.png"
    "payback_coupons_20250101_120000.html".

Definition no_outcomes : PaybackActivator.outcomes :=
  {| PaybackActivator.activation_results := [];
     PaybackActivator.successful := [];
     PaybackActivator.failed := [] |}.

Definition command_line : Activate.args :=
  {| Activate.config := "config.yaml";
     Activate.username := Some "user@example.org";
     Activate.password := Some "secret";
     Activate.log_level := INFO;
     Activate.no_notify := false;
     Activate.headless := true |}.

End Scenario.

(** ** Observations

    What the statements below read off a trace, a merchant or an
    outcome. *)

(** The addresses that the browser was sent to, in order. *)
Definition navigations (t : trace) : list string :=
  omap (λ c, match c with GoTo url => Some url | _ => None end) t.

(** The number of times the activation script was sent to the page. *)
Definition is_activation (c : call) : bool :=
  match c with
  | ExecuteScript ActivationScript => true
  | _ => false
  end.

Definition activation_attempts (t : trace) : nat :=
  length (List.filter is_activation t).

(** A call that reaches the browser. *)
Definition is_browser_call (c : call) : bool :=
  match c with
  | ChromeEnter _ | ChromeExit | BrowserStart | GetPage | GoTo _
  | ExecuteScript _ | FindElement _ | Click | Screenshot _
  | GetScreenshot _ | PageSource => true
  | _ => false
  end.

(** The test of line 670. *)
Definition has_partner_id (m : merchant) : bool :=
  truthy (PStr (PaybackActivator.partner_id_of m)).

(** An outcome that comes from [activate_coupons_for_partner]: it
    carries the partner id. *)
Definition attempted (o : gmap string pyval) : bool :=
  bool_decide (is_Some (o !! "partner_id")).

(** The outcome that the loop records for a merchant is one of the three
    dicts that the code builds. *)
Definition outcome_for (m : merchant) (o : gmap string pyval) : Prop :=
  if has_partner_id m then
    (∃ r, o = PaybackActivator.success_outcome
                (PaybackActivator.name_of m) (PaybackActivator.partner_id_of m) r)
    ∨ (∃ err, o = PaybackActivator.failure_outcome
                    (PaybackActivator.name_of m)
                    (PaybackActivator.partner_id_of m) err)
  else o = PaybackActivator.no_partner_id_outcome (PaybackActivator.name_of m).

(** [sum(o["activated"] for o in outcomes)], starting from [start]. *)
Fixpoint sum_activated_from (start : Z) (outcomes : list (gmap string pyval))
  : result Z :=
  match outcomes with
  | [] => Ok start
  | o :: rest =>
      next ← int_iadd start (dict_get o "activated" (PInt 0));
      sum_activated_from next rest
  end.

Definition sum_activated (outcomes : list (gmap string pyval)) : result Z :=
  sum_activated_from 0 outcomes.

(** The list under a key of the dict that [run] returns. *)
Definition result_list (r : gmap string pyval) (k : string) : list pyval :=
  match r !! k with
  | Some (PList l) => l
  | _ => []
  end.

(** The three lists after the loop, for the outcomes [outs] of the
    merchants. *)
Definition partition_of (outs : list (gmap string pyval))
  : PaybackActivator.outcomes :=
  {| PaybackActivator.activation_results := List.filter attempted outs;
     PaybackActivator.successful :=
       List.filter PaybackActivator.succeeded outs;
     PaybackActivator.failed :=
       List.filter (λ o, negb (PaybackActivator.succeeded o)) outs |}.

(** The merchants of the configuration, line 312. *)
Definition merchants_of (self : PaybackActivator.t) : list merchant :=
  default [] (cfg_merchants (PaybackActivator.config self)).

(** The three shapes of the dict that [run] returns: line 318, lines
    655-659, lines 752-759. *)
Inductive run_result (ms : list merchant) : gmap string pyval → Prop :=
| NoMerchants :
    ms = [] → run_result ms PaybackActivator.no_merchants_result
| LoginFailed e :
    ms ≠ [] → run_result ms (PaybackActivator.login_failed_result e)
| Summary outs total_activated total_available screenshot_path html_path :
    ms ≠ [] →
    Forall2 outcome_for ms outs →
    sum_activated (List.filter PaybackActivator.succeeded outs)
      = Ok total_activated →
    run_result ms
      (PaybackActivator.run_summary (partition_of outs) total_activated
         total_available screenshot_path html_path).

(** A computation that makes only calls for which [P] holds, whether it
    returns or raises. *)
Definition only_calls {A} (P : call → bool) (m : M A) : Prop :=
  ∀ t, ∃ ext, (m t).2 = t ++ ext ∧ forallb P ext = true.

(** The element that the consent step looks for, line 387. *)
Definition cookie_selector : string :=
  "//*[@id=" +:+ dquote +:+ "onetrust-reject-all-handler" +:+ dquote +:+ "]".

(** ** Further observations and cases *)

(** The scripts that were sent to the page, in order. *)
Definition scripts (t : trace) : list script :=
  omap (λ c, match c with ExecuteScript s => Some s | _ => None end) t.

(** The scripts of the login, in the order of lines 364-620. *)
Definition login_sequence (self : PaybackActivator.t) : list script :=
  [ StealthScript;
    UsernameScript (PaybackActivator.username self);
    ContinueScript;
    PasswordScript (PaybackActivator.password self);
    LoginClickScript ].






Definition is_screenshot (c : call) : bool :=
  match c with
  | Screenshot _ => true
  | _ => false
  end.

Definition is_chrome_exit (c : call) : bool :=
  match c with
  | ChromeExit => true
  | _ => false
  end.

(** The credential that a call carries, if it is one of the two login
    scripts. *)
Definition carries_only (username password : string) (c : call) : bool :=
  match c with
  | ExecuteScript (UsernameScript u) => String.eqb u username
  | ExecuteScript (PasswordScript p) => String.eqb p password
  | _ => true
  end.

Definition is_chrome_enter (c : call) : bool :=
  match c with
  | ChromeEnter _ => true
  | _ => false
  end.

(** The calls that the body of the [async with] of [run] can make: the
    browser is started and sent to pages of www.payback.de only, the two
    login scripts carry the credentials of the activator, the debug
    screenshot needs one of the two flags, the files are the two evidence
    files, and nothing is read from the configuration, printed or dumped
    as JSON. *)
Definition session_call (self : PaybackActivator.t) (c : call) : bool :=
  match c with
  | BrowserStart | GetPage | FindElement _ | Click | Sleep _ | Log _ _
  | PageSource => true
  | GoTo url => String.prefix "https://www.payback.de/" url
  | ExecuteScript (UsernameScript u) =>
      String.eqb u (PaybackActivator.username self)
  | ExecuteScript (PasswordScript p) =>
      String.eqb p (PaybackActivator.password self)
  | ExecuteScript _ => true
  | Screenshot path =>
      (PaybackActivator.debug_mode self
       || PaybackActivator.is_github_actions self)
      && String.prefix "payback_debug_" path
  | GetScreenshot path => String.prefix "payback_coupons_" path
  | WriteFile path _ => String.prefix "payback_coupons_" path
  | ReadConfig _ | ChromeEnter _ | ChromeExit | JsonDump _ _ | Stdout _ => false
  end.

(** The calls of [run]: those of the body, and the start and the
    teardown of the browser around it. *)
Definition run_call (self : PaybackActivator.t) (c : call) : bool :=
  match c with
  | ChromeEnter _ | ChromeExit => true
  | _ => session_call self c
  end.

(** A predicate on calls that lets every log line and every sleep pass. *)
Definition passes_logs (P : call → bool) : Prop :=
  (∀ lvl msg, P (Log lvl msg) = true) ∧ (∀ n, P (Sleep n) = true).

(** Further environments: a [json.loads] that also knows a JSON list, a
    JSON number and an object whose count is a string; a configuration
    file that cannot be read. *)
Module Cases.

(** [{"success": true, "activated": "3", "total": 5}] *)
Definition text_count_as_string : string :=
  "{" +:+ Scenario.quoted "success" +:+ ": true, "
  +:+ Scenario.quoted "activated" +:+ ": " +:+ Scenario.quoted "3" +:+ ", "
  +:+ Scenario.quoted "total" +:+ ": 5}".

Definition loads (v : pyval) : result pyval :=
  match v with
  | PStr s =>
      if String.eqb s "[1, 2]" then Ok (PList [PInt 1; PInt 2])
      else if String.eqb s "3" then Ok (PInt 3)
      else if String.eqb s text_count_as_string then
        Ok (PDict {[ "success" := PBool true; "activated" := PStr "3";
                     "total" := PInt 5 ]})
      else Scenario.loads v
  | _ => Scenario.loads v
  end.

Definition pages (url : string) : pyval :=
  if String.eqb url (Scenario.coupons_url "A1") then PStr "[1, 2]"
  else if String.eqb url (Scenario.coupons_url "B2")
  then PStr text_count_as_string
  else PNone.

Definition make (respond : trace → call → result pyval)
    (yaml : string → result configuration) (vars : string → option string)
  : environment :=
  {| respond := respond;
     clock := λ _, "20250101_120000";
     yaml_file := yaml;
     environ := vars;
     json_loads := loads;
     py_str := Scenario.str |}.

Definition odd_payloads : environment :=
  make (Scenario.browser pages) (λ _, Ok Scenario.two_merchants) (λ _, None).

(** No configuration file. *)
Definition no_file : environment :=
  make (Scenario.browser pages)
       (λ _, Raise "[Errno 2] No such file or directory: 'config.yaml'")
       (λ _, None).

(** A browser that loses the connection when it is sent to merchant B. *)
Definition connection_lost (t : trace) (c : call) : result pyval :=
  match c with
  | GoTo url =>
      if String.eqb url (Scenario.coupons_url "B2")
      then Raise "Connection closed" else Ok PNone
  | _ => Scenario.browser Scenario.mixed_pages t c
  end.

Definition flaky : environment :=
  Scenario.make connection_lost Scenario.two_merchants.

(** The credentials in the environment variables only. *)
Definition from_environment : environment :=
  make (Scenario.browser Scenario.mixed_pages)
       (λ _, Ok (Scenario.only Scenario.merchant_A))
       (λ k, if String.eqb k "PAYBACK_USERNAME" then Some "env@example.org"
             else if String.eqb k "PAYBACK_PASSWORD" then Some "from-env"
             else None).

Definition bare_command_line : Activate.args :=
  {| Activate.config := "config.yaml";
     Activate.username := Some EmptyString;
     Activate.password := None;
     Activate.log_level := INFO;
     Activate.no_notify := true;
     Activate.headless := false |}.

End Cases.

(** * Properties *)

(** ** The monad *)

Section MonadLemmas.
Context {A B : Type}.

Lemma bind_unfold (m : M A) (f : A → M B) t :
  (m ≫= f) t = match m t with
               | (Ok a, t') => f a t'
               | (Raise e, t') => (Raise e, t')
               end.
Proof. reflexivity. Qed.

Lemma bind_Ok (m : M A) (f : A → M B) t b t' :
  (m ≫= f) t = (Ok b, t') →
  ∃ a t1, m t = (Ok a, t1) ∧ f a t1 = (Ok b, t').
Proof.
  rewrite bind_unfold. destruct (m t) as [[a|e] t1]; [eauto | discriminate].
Qed.

Lemma bind_Raise (m : M A) (f : A → M B) t e t' :
  (m ≫= f) t = (Raise e, t') →
  m t = (Raise e, t') ∨ ∃ a t1, m t = (Ok a, t1) ∧ f a t1 = (Raise e, t').
Proof.
  rewrite bind_unfold. destruct (m t) as [[a|e1] t1]; [eauto | ].
  intros [= -> ->]. by left.
Qed.

Lemma bind_step (m : M A) (f : A → M B) t a t1 :
  m t = (Ok a, t1) → (m ≫= f) t = f a t1.
Proof. intros H. by rewrite bind_unfold, H. Qed.

Lemma bind_fail (m : M A) (f : A → M B) t e t1 :
  m t = (Raise e, t1) → (m ≫= f) t = (Raise e, t1).
Proof. intros H. by rewrite bind_unfold, H. Qed.

Lemma try_except_Ok (body : M A) (handler : exn → M A) t a t' :
  try_except body handler t = (Ok a, t') →
  body t = (Ok a, t') ∨
  ∃ e t1, body t = (Raise e, t1) ∧ handler e t1 = (Ok a, t').
Proof.
  unfold try_except. destruct (body t) as [[a1|e] t1]; [by left | eauto].
Qed.

End MonadLemmas.

Lemma ret_eq {A} (a : A) t : (mret a : M A) t = (Ok a, t).
Proof. reflexivity. Qed.

Lemma emit_eq c t : emit c t = (Ok tt, t ++ [c]).
Proof. reflexivity. Qed.

Lemma log_eq lvl msg t : log lvl msg t = (Ok tt, t ++ [Log lvl msg]).
Proof. reflexivity. Qed.

Lemma sleep_eq n t : sleep n t = (Ok tt, t ++ [Sleep n]).
Proof. reflexivity. Qed.

Lemma request_eq E c t : request E c t = (respond E t c, t ++ [c]).
Proof. reflexivity. Qed.

Lemma lift_eq {A} (r : result A) t : lift r t = (r, t).
Proof. reflexivity. Qed.

Lemma now_eq E t : now E t = (Ok (clock E t), t).
Proof. reflexivity. Qed.

Lemma truthy_PStr s : truthy (PStr s) = true ↔ s ≠ EmptyString.
Proof.
  simpl. destruct (String.eqb_spec s EmptyString); simpl; split; congruence.
Qed.

Lemma navigations_app t1 t2 :
  navigations (t1 ++ t2) = navigations t1 ++ navigations t2.
Proof. apply omap_app. Qed.

Lemma activation_attempts_app t1 t2 :
  activation_attempts (t1 ++ t2) =
    (activation_attempts t1 + activation_attempts t2)%nat.
Proof.
  unfold activation_attempts. by rewrite List.filter_app, length_app.
Qed.

(** Run the deterministic steps at the head of a computation in [H], and
    follow the answer [Ok] at each request. *)
Ltac mrun H :=
  repeat first
    [ rewrite bind_unfold in H
    | rewrite log_eq in H
    | rewrite sleep_eq in H
    | rewrite ret_eq in H
    | rewrite now_eq in H
    | rewrite request_eq in H;
      match type of H with
      | context [respond ?E ?t ?c] => destruct (respond E t c) eqn:?
      end;
      [ | discriminate H ]
    | progress cbv beta iota in H ].

(** The same in the goal, for the steps that need no case analysis. *)
Ltac msimpl :=
  repeat first
    [ rewrite bind_unfold
    | rewrite log_eq
    | rewrite sleep_eq
    | rewrite ret_eq
    | rewrite now_eq
    | rewrite lift_eq
    | progress cbv beta iota ].

(** ** The outcome of one merchant *)

Section Activation.
Context (E : environment).

Abbreviation process_results := (PaybackActivator.process_results E).
Abbreviation parse_results := (PaybackActivator.parse_results E).
Abbreviation outcome_of_results := (PaybackActivator.outcome_of_results E).
Abbreviation failure_outcome := PaybackActivator.failure_outcome.
Abbreviation success_outcome := PaybackActivator.success_outcome.
Abbreviation retrieve_results := (PaybackActivator.retrieve_results E).
Abbreviation activate_coupons_for_partner :=
  (PaybackActivator.activate_coupons_for_partner E).
Abbreviation process_merchants := (PaybackActivator.process_merchants E).
Abbreviation name_of := PaybackActivator.name_of.
Abbreviation partner_id_of := PaybackActivator.partner_id_of.

(** A bare string goes to [json.loads] as it is. *)
Lemma parse_results_bare s : parse_results (PStr s) = json_loads E (PStr s).
Proof. reflexivity. Qed.

(** The envelope hands the text under [result], [result], [value] to
    [json.loads]. *)
Lemma parse_results_envelope (d r rr : gmap string pyval) v :
  d !! "result" = Some (PDict r) →
  r !! "result" = Some (PDict rr) →
  rr !! "value" = Some v →
  parse_results (PDict d) = json_loads E v.
Proof.
  intros Hd Hr Hv. unfold PaybackActivator.parse_results.
  rewrite bool_decide_eq_true_2 by (rewrite Hd; eauto).
  unfold dict_get. rewrite Hd. simpl. unfold dict_get. rewrite Hr. simpl.
  unfold dict_get. by rewrite Hv.
Qed.

(** What [outcome_of_results] returns, and that it logs one line. *)
Lemma outcome_of_results_dict name pid (r : gmap string pyval) t :
  ∃ msg lvl,
    outcome_of_results name pid (PDict r) t =
      (Ok (if truthy (dict_get r "success" PNone)
           then success_outcome name pid r
           else failure_outcome name pid
                  (dict_get r "error" (PStr "Unknown error"))),
       t ++ [Log lvl msg]).
Proof.
  unfold PaybackActivator.outcome_of_results.
  destruct (truthy (dict_get r "success" PNone)).
  - destruct (truthy (dict_get r "alreadyActivated" PNone));
      rewrite bind_unfold, log_eq, ret_eq; eauto.
  - rewrite bind_unfold, log_eq, ret_eq; eauto.
Qed.

Lemma outcome_of_results_not_dict name pid v t :
  (∀ r, v ≠ PDict r) →
  outcome_of_results name pid v t =
    (Raise ("'" +:+ type_name v +:+ "' object has no attribute 'get'"), t).
Proof. intros H. destruct v; try reflexivity. by destruct (H d). Qed.

(** [process_results] never raises: it returns the success dict or a
    failure dict, and adds one log line to the trace. *)
Lemma process_results_total name pid v t :
  ∃ o lvl msg,
    process_results name pid v t = (Ok o, t ++ [Log lvl msg]) ∧
    ((∃ r, o = success_outcome name pid r) ∨
     (∃ err, o = failure_outcome name pid err)).
Proof.
  unfold PaybackActivator.process_results.
  destruct (truthy v).
  - unfold try_except. rewrite bind_unfold, lift_eq.
    destruct (parse_results v) as [results|e].
    + destruct results as [| | | | |r];
        try (rewrite outcome_of_results_not_dict by congruence;
             rewrite bind_unfold, log_eq, ret_eq; eauto 10).
      destruct (outcome_of_results_dict name pid r t) as (msg & lvl & ->).
      destruct (truthy _); eauto 10.
    + rewrite bind_unfold, log_eq, ret_eq; eauto 10.
  - rewrite bind_unfold, log_eq, ret_eq; eauto 10.
Qed.

(** A missing or malformed value gives the failure dict with the text of
    the error. *)
Lemma process_results_failure name pid v err t :
  (truthy v = false ∧ err = "Failed to get activation results") ∨
  (truthy v = true ∧ parse_results v = Raise err) →
  ∃ msg,
    process_results name pid v t =
      (Ok (failure_outcome name pid (PStr err)), t ++ [Log ERROR msg]).
Proof.
  unfold PaybackActivator.process_results.
  intros [[-> ->] | [-> Hparse]].
  - rewrite bind_unfold, log_eq, ret_eq; eauto.
  - unfold try_except. rewrite bind_unfold, lift_eq, Hparse.
    rewrite bind_unfold, log_eq, ret_eq; eauto.
Qed.

(** C7: the bare JSON text and the envelope that nests the same text
    under result/result/value are parsed by the same call of [json.loads]
    and give the same outcome, for every text that is not empty (a JSON
    text never is) and every envelope, whatever its other keys. *)
Theorem both_wire_shapes_same_outcome name pid s (d r rr : gmap string pyval) t :
  s ≠ EmptyString →
  d !! "result" = Some (PDict r) →
  r !! "result" = Some (PDict rr) →
  rr !! "value" = Some (PStr s) →
  parse_results (PStr s) = json_loads E (PStr s) ∧
  parse_results (PDict d) = json_loads E (PStr s) ∧
  process_results name pid (PDict d) t = process_results name pid (PStr s) t.
Proof.
  intros Hs Hd Hr Hv.
  pose proof (parse_results_envelope d r rr (PStr s) Hd Hr Hv) as Henv.
  split; [reflexivity | split; [exact Henv | ]].
  unfold PaybackActivator.process_results.
  assert (truthy (PStr s) = true) as -> by by apply truthy_PStr.
  assert (truthy (PDict d) = true) as ->.
  { simpl. rewrite bool_decide_eq_false_2; [done | ].
    intros ->. by rewrite lookup_empty in Hd. }
  unfold try_except. by rewrite !bind_unfold, !lift_eq, Henv.
Qed.

Lemma retrieve_results_navigates self name pid t v t1 :
  retrieve_results self name pid t = (Ok v, t1) →
  navigations t1 = navigations t ++ [PaybackActivator.coupons_url pid].
Proof.
  unfold PaybackActivator.retrieve_results. intros H.
  destruct (PaybackActivator.debug_mode self
            || PaybackActivator.is_github_actions self);
    mrun H; injection H as _ <-;
    rewrite !navigations_app; simpl; by rewrite !app_nil_r.
Qed.

Lemma activate_outcome self name pid t o t1 :
  activate_coupons_for_partner self name pid t = (Ok o, t1) →
  ((∃ r, o = success_outcome name pid r) ∨
   (∃ err, o = failure_outcome name pid err)) ∧
  navigations t1 = navigations t ++ [PaybackActivator.coupons_url pid].
Proof.
  unfold PaybackActivator.activate_coupons_for_partner. intros H.
  apply bind_Ok in H as (v & t0 & Hretrieve & Hprocess).
  destruct (process_results_total name pid v t0)
    as (o' & lvl & msg & Heq & Hshape).
  rewrite Heq in Hprocess. injection Hprocess as <- <-.
  split; [exact Hshape | ].
  rewrite navigations_app, (retrieve_results_navigates _ _ _ _ _ _ Hretrieve).
  simpl. by rewrite app_nil_r.
Qed.

Lemma succeeded_success name pid r :
  PaybackActivator.succeeded (success_outcome name pid r) = true.
Proof. reflexivity. Qed.

Lemma succeeded_failure name pid err :
  PaybackActivator.succeeded (failure_outcome name pid err) = false.
Proof. reflexivity. Qed.

Lemma attempted_success name pid r : attempted (success_outcome name pid r) = true.
Proof. reflexivity. Qed.

Lemma attempted_failure name pid err :
  attempted (failure_outcome name pid err) = true.
Proof. reflexivity. Qed.

(** The loop appends the outcome of each merchant, in order, to the lists
    that its flags select, and navigates once for each merchant that has
    a partner id. *)
Lemma process_merchants_spec self ms : ∀ acc t acc' t',
  process_merchants self ms acc t = (Ok acc', t') →
  ∃ outs,
    Forall2 outcome_for ms outs ∧
    PaybackActivator.activation_results acc' =
      PaybackActivator.activation_results acc ++ List.filter attempted outs ∧
    PaybackActivator.successful acc' =
      PaybackActivator.successful acc
      ++ List.filter PaybackActivator.succeeded outs ∧
    PaybackActivator.failed acc' =
      PaybackActivator.failed acc
      ++ List.filter (λ o, negb (PaybackActivator.succeeded o)) outs ∧
    navigations t' =
      navigations t
      ++ ((λ m, PaybackActivator.coupons_url (partner_id_of m))
            <$> List.filter has_partner_id ms).
Proof.
  induction ms as [|m ms IH]; intros acc t acc' t' H.
  - injection H as <- <-. exists []. rewrite !app_nil_r. by repeat split.
  - cbn [PaybackActivator.process_merchants] in H.
    fold (has_partner_id m) in H.
    cbn [List.filter fmap list_fmap].
    destruct (has_partner_id m) eqn:Hpid; cbn [negb] in H.
    + apply bind_Ok in H as (o & t1 & Hactivate & H).
      apply activate_outcome in Hactivate as [Hshape Hnav].
      rewrite bind_unfold, sleep_eq in H.
      apply IH in H as (outs & Hall & Har & Hsucc & Hfail & Hnavs).
      exists (o :: outs). split.
      { constructor; [ | exact Hall]. unfold outcome_for. by rewrite Hpid. }
      rewrite Har, Hsucc, Hfail, Hnavs, navigations_app, Hnav.
      cbn [List.filter].
      destruct Hshape as [[r ->] | [err ->]];
        rewrite ?succeeded_success, ?succeeded_failure,
                ?attempted_success, ?attempted_failure;
        cbn [negb PaybackActivator.activation_results
             PaybackActivator.successful PaybackActivator.failed];
        simpl navigations; rewrite <- ?app_assoc, ?app_nil_r; done.
    + rewrite bind_unfold, log_eq in H.
      apply IH in H as (outs & Hall & Har & Hsucc & Hfail & Hnavs).
      exists (PaybackActivator.no_partner_id_outcome (name_of m) :: outs).
      split.
      { constructor; [ | exact Hall]. unfold outcome_for. by rewrite Hpid. }
      rewrite Har, Hsucc, Hfail, Hnavs, navigations_app.
      cbn [List.filter].
      assert (attempted (PaybackActivator.no_partner_id_outcome (name_of m))
              = false) as -> by reflexivity.
      assert (PaybackActivator.succeeded
                (PaybackActivator.no_partner_id_outcome (name_of m))
              = false) as -> by reflexivity.
      cbn [negb PaybackActivator.activation_results
           PaybackActivator.successful PaybackActivator.failed].
      simpl navigations. rewrite <- ?app_assoc, ?app_nil_r. done.
Qed.

Lemma bind_assoc {A B C} (m : M A) (f : A → M B) (g : B → M C) t :
  ((m ≫= f) ≫= g) t = (m ≫= λ a, f a ≫= g) t.
Proof. rewrite !bind_unfold. by destruct (m t) as [[a|e] t1]. Qed.

Lemma process_merchants_app self pre post : ∀ acc t,
  process_merchants self (pre ++ post) acc t =
    (process_merchants self pre acc ≫= process_merchants self post) t.
Proof.
  induction pre as [|m pre IH]; intros acc t; [done | ].
  cbn [app PaybackActivator.process_merchants].
  destruct (negb _).
  - rewrite bind_assoc, !(bind_unfold (log _ _)), log_eq. apply IH.
  - rewrite bind_assoc, !(bind_unfold (activate_coupons_for_partner _ _ _)).
    destruct (activate_coupons_for_partner _ _ _ _) as [[o|e] t1]; [ | done].
    rewrite bind_assoc, !(bind_unfold (sleep _)), sleep_eq. apply IH.
Qed.

Lemma process_merchants_after self pre post acc t acc1 t1 :
  process_merchants self pre acc t = (Ok acc1, t1) →
  process_merchants self (pre ++ post) acc t =
    process_merchants self post acc1 t1.
Proof.
  intros H. by rewrite process_merchants_app, (bind_step _ _ _ _ _ H).
Qed.

(** C4: when the loop reaches a merchant whose retrieved value is
    missing, or does not parse, the merchant gets the failure outcome
    with the matching error text, and the loop goes on with the merchants
    that follow, the outcome recorded in the failed list. *)
Theorem failed_payload_is_isolated self pre m rest acc t acc1 t1 v t2 err :
  process_merchants self pre acc t = (Ok acc1, t1) →
  partner_id_of m ≠ EmptyString →
  retrieve_results self (name_of m) (partner_id_of m) t1 = (Ok v, t2) →
  (truthy v = false ∧ err = "Failed to get activation results") ∨
  (truthy v = true ∧ parse_results v = Raise err) →
  let o := failure_outcome (name_of m) (partner_id_of m) (PStr err) in
  ∃ msg,
    activate_coupons_for_partner self (name_of m) (partner_id_of m) t1 =
      (Ok o, t2 ++ [Log ERROR msg]) ∧
    o !! "success" = Some (PBool false) ∧
    o !! "error" = Some (PStr err) ∧
    process_merchants self (pre ++ m :: rest) acc t =
      process_merchants self rest
        {| PaybackActivator.activation_results :=
             PaybackActivator.activation_results acc1 ++ [o];
           PaybackActivator.successful := PaybackActivator.successful acc1;
           PaybackActivator.failed := PaybackActivator.failed acc1 ++ [o] |}
        (t2 ++ [Log ERROR msg; Sleep 2]).
Proof.
  intros Hpre Hpid Hretrieve Hv o.
  destruct (process_results_failure (name_of m) (partner_id_of m) v err t2 Hv)
    as [msg Hprocess].
  exists msg.
  assert (activate_coupons_for_partner self (name_of m) (partner_id_of m) t1 =
            (Ok o, t2 ++ [Log ERROR msg])) as Hactivate.
  { unfold PaybackActivator.activate_coupons_for_partner.
    by rewrite (bind_step _ _ _ _ _ Hretrieve). }
  split; [exact Hactivate | ].
  split; [reflexivity | split; [reflexivity | ]].
  rewrite (process_merchants_after _ _ _ _ _ _ _ Hpre).
  cbn [PaybackActivator.process_merchants].
  apply truthy_PStr in Hpid. rewrite Hpid. cbn [negb].
  rewrite (bind_step _ _ _ _ _ Hactivate).
  assert (PaybackActivator.succeeded o = false) as -> by reflexivity.
  rewrite bind_unfold, sleep_eq. by rewrite <- app_assoc.
Qed.

(** C5: when the loop reaches a merchant without a partner id, it
    records the outcome with [success = False] and the error text in the
    failed list; the only call made for the merchant is the warning, so
    the browser is not sent anywhere, and the loop goes on.  When the loop
    ends, the outcome is in the failed list and the addresses visited are
    those of the other merchants. *)
Theorem missing_partner_id_is_rejected self pre m rest acc t acc1 t1 :
  process_merchants self pre acc t = (Ok acc1, t1) →
  partner_id_of m = EmptyString →
  let o := PaybackActivator.no_partner_id_outcome (name_of m) in
  let warning := Log WARNING ("Skipping " +:+ name_of m
                              +:+ ": No partner_id specified") in
  o !! "success" = Some (PBool false) ∧
  o !! "error" = Some (PStr "No partner_id specified") ∧
  process_merchants self (pre ++ m :: rest) acc t =
    process_merchants self rest
      {| PaybackActivator.activation_results :=
           PaybackActivator.activation_results acc1;
         PaybackActivator.successful := PaybackActivator.successful acc1;
         PaybackActivator.failed := PaybackActivator.failed acc1 ++ [o] |}
      (t1 ++ [warning]) ∧
  navigations (t1 ++ [warning]) = navigations t1 ∧
  ∀ acc' t',
    process_merchants self (pre ++ m :: rest) acc t = (Ok acc', t') →
    In o (PaybackActivator.failed acc') ∧
    navigations t' =
      navigations t
      ++ ((λ m, PaybackActivator.coupons_url (partner_id_of m))
            <$> List.filter has_partner_id (pre ++ rest)).
Proof.
  intros Hpre Hpid o warning.
  assert (process_merchants self (pre ++ m :: rest) acc t =
    process_merchants self rest
      {| PaybackActivator.activation_results :=
           PaybackActivator.activation_results acc1;
         PaybackActivator.successful := PaybackActivator.successful acc1;
         PaybackActivator.failed := PaybackActivator.failed acc1 ++ [o] |}
      (t1 ++ [warning])) as Hstep.
  { rewrite (process_merchants_after _ _ _ _ _ _ _ Hpre).
    cbn [PaybackActivator.process_merchants].
    rewrite Hpid. cbn [truthy String.eqb negb].
    by rewrite bind_unfold, log_eq. }
  assert (navigations (t1 ++ [warning]) = navigations t1) as Hquiet.
  { rewrite navigations_app. simpl. by rewrite app_nil_r. }
  split; [reflexivity | split; [reflexivity | ]].
  split; [exact Hstep | split; [exact Hquiet | ]].
  intros acc' t' H. rewrite Hstep in H.
  apply process_merchants_spec in H as (outs & _ & _ & _ & Hfail & Hnav).
  apply process_merchants_spec in Hpre as (_ & _ & _ & _ & _ & Hnav1).
  split.
  - rewrite Hfail. cbn [PaybackActivator.failed].
    apply in_or_app. left. apply in_or_app. right. by left.
  - rewrite Hnav, Hquiet, Hnav1, List.filter_app, fmap_app, app_assoc. done.
Qed.

(** ** The summary *)

Abbreviation summarize := (PaybackActivator.summarize E).
Abbreviation activation_workflow := (PaybackActivator.activation_workflow E).
Abbreviation session := (PaybackActivator.session E).
Abbreviation run := (PaybackActivator.run E).

Lemma lift_Ok {A} (r : result A) t a t' :
  lift r t = (Ok a, t') → r = Ok a ∧ t' = t.
Proof. unfold lift. by intros [= -> ->]. Qed.

(** The first total that [summarize] returns is the sum of the
    [activated] counts of the results whose flag is set. *)
Lemma summarize_spec rs : ∀ a b t totals t',
  summarize rs a b t = (Ok totals, t') →
  sum_activated_from a (List.filter PaybackActivator.succeeded rs)
    = Ok totals.1.
Proof.
  induction rs as [|r rs IH]; intros a b t totals t' H.
  - by injection H as <- <-.
  - cbn [PaybackActivator.summarize] in H. cbn [List.filter].
    destruct (PaybackActivator.succeeded r).
    + apply bind_Ok in H as (a' & t1 & Ha & H).
      apply lift_Ok in Ha as [Ha ->].
      apply bind_Ok in H as (b' & t1 & Hb & H).
      apply lift_Ok in Hb as [Hb ->].
      apply bind_Ok in H as (? & t1 & _ & H).
      cbn [sum_activated_from]. rewrite Ha. simpl. eauto.
    + apply bind_Ok in H as (? & t1 & _ & H). eauto.
Qed.

Lemma outcome_for_succeeded_attempted m o :
  outcome_for m o → PaybackActivator.succeeded o = true → attempted o = true.
Proof.
  unfold outcome_for.
  destruct (has_partner_id m); [intros [[r ->] | [err ->]] | intros ->]; done.
Qed.

Lemma filter_succeeded_attempted ms outs :
  Forall2 outcome_for ms outs →
  List.filter PaybackActivator.succeeded (List.filter attempted outs)
    = List.filter PaybackActivator.succeeded outs.
Proof.
  induction 1 as [|m o ms outs Ho _ IH]; [done | ].
  cbn [List.filter].
  destruct (attempted o) eqn:Ha; cbn [List.filter].
  - by rewrite IH.
  - destruct (PaybackActivator.succeeded o) eqn:Hs; [ | done].
    rewrite (outcome_for_succeeded_attempted m o Ho Hs) in Ha. done.
Qed.

Lemma tally_spec self ms t acc totals t' :
  PaybackActivator.tally E self ms t = (Ok (acc, totals), t') →
  ∃ outs,
    Forall2 outcome_for ms outs ∧
    acc = partition_of outs ∧
    sum_activated (List.filter PaybackActivator.succeeded outs) = Ok totals.1.
Proof.
  unfold PaybackActivator.tally. intros H.
  apply bind_Ok in H as (acc0 & t1 & Hloop & H).
  apply process_merchants_spec in Hloop
    as (outs & Hall & Har & Hsucc & Hfail & _).
  cbn [PaybackActivator.activation_results PaybackActivator.successful
       PaybackActivator.failed app] in Har, Hsucc, Hfail.
  apply bind_Ok in H as (? & t2 & _ & H).
  apply bind_Ok in H as (totals0 & t3 & Hsum & H).
  apply summarize_spec in Hsum.
  rewrite Har, (filter_succeeded_attempted ms outs Hall) in Hsum.
  apply bind_Ok in H as (? & t4 & _ & H).
  apply bind_Ok in H as (? & t5 & _ & H).
  injection H as <- <- _.
  exists outs. split; [exact Hall | split; [ | exact Hsum]].
  destruct acc0 as [ar succ fail]. cbn in Har, Hsucc, Hfail. by subst.
Qed.

Lemma activation_workflow_spec self ms t r t' :
  activation_workflow self ms t = (Ok r, t') →
  ∃ outs total_activated total_available screenshot_path html_path,
    Forall2 outcome_for ms outs ∧
    r = PaybackActivator.run_summary (partition_of outs)
          total_activated total_available screenshot_path html_path ∧
    sum_activated (List.filter PaybackActivator.succeeded outs)
      = Ok total_activated.
Proof.
  unfold PaybackActivator.activation_workflow. intros H.
  apply bind_Ok in H as ([acc totals] & t1 & Htally & H).
  apply tally_spec in Htally as (outs & Hall & -> & Hsum).
  apply bind_Ok in H as (paths & t2 & _ & H).
  injection H as <- _.
  exists outs, totals.1, totals.2, paths.1, paths.2. done.
Qed.

(** ** The run *)

Lemma with_chrome_Ok {A} opts (body : M A) t r t' :
  PaybackActivator.with_chrome E opts body t = (Ok r, t') →
  ∃ t2, body (t ++ [ChromeEnter opts]) = (Ok r, t2) ∧ t' = t2 ++ [ChromeExit].
Proof.
  unfold PaybackActivator.with_chrome. rewrite request_eq.
  destruct (respond E t (ChromeEnter opts)); [ | discriminate].
  destruct (body (t ++ [ChromeEnter opts])) as [r2 t2].
  rewrite request_eq. destruct (respond E t2 ChromeExit); [ | discriminate].
  intros [= -> <-]. eauto.
Qed.

Lemma check_login_status_Ok t aborted t' :
  PaybackActivator.check_login_status E t = (Ok aborted, t') →
  aborted = None ∨ ∃ e, aborted = Some (PaybackActivator.login_failed_result e).
Proof.
  unfold PaybackActivator.check_login_status, try_except.
  rewrite bind_unfold, request_eq.
  destruct (respond E t (ExecuteScript LoginProbeScript)) as [v|e].
  - intros H. mrun H. injection H as <- _. by left.
  - intros H. mrun H. injection H as <- _. eauto.
Qed.

Lemma session_result self ms t r t' :
  ms ≠ [] →
  session self ms t = (Ok r, t') → run_result ms r.
Proof.
  unfold PaybackActivator.session. intros Hms H.
  apply bind_Ok in H as (? & t1 & _ & H).
  apply bind_Ok in H as (aborted & t2 & Hcheck & H).
  apply check_login_status_Ok in Hcheck as [-> | [e ->]].
  - apply activation_workflow_spec in H
      as (outs & ta & tv & sp & hp & Hall & -> & Hsum).
    by constructor.
  - injection H as <- _. by constructor.
Qed.

(** Every dict that [run] returns has one of the three shapes. *)
Lemma run_returns self t r t' :
  run self t = (Ok r, t') → run_result (merchants_of self) r.
Proof.
  unfold PaybackActivator.run. fold (merchants_of self).
  destruct (merchants_of self) as [|m ms] eqn:Hms.
  - intros H. mrun H. injection H as <- _. by constructor.
  - intros H.
    apply bind_Ok in H as (opts & t2 & _ & H).
    apply with_chrome_Ok in H as (t3 & H & _).
    by apply session_result in H.
Qed.

Lemma run_result_lists ms r :
  run_result ms r →
  ∃ s f, r !! "successful" = Some (PList s) ∧ r !! "failed" = Some (PList f).
Proof. destruct 1; eauto. Qed.

(** C2: in every dict that [run] returns, the successful and the failed
    list are the outcomes of the merchants split by their flag, so every
    outcome is in exactly one of them, and [total_activated], where the
    dict has it, is the sum of the [activated] counts of the successful
    list.  The dict has it whenever it is not one of the two aggregates
    that carry an [error]. *)
Theorem run_totals_and_partition self t r t' :
  run self t = (Ok r, t') →
  ∃ outs s f,
    r !! "successful" = Some (PList (PDict <$> s)) ∧
    r !! "failed" = Some (PList (PDict <$> f)) ∧
    s = List.filter PaybackActivator.succeeded outs ∧
    f = List.filter (λ o, negb (PaybackActivator.succeeded o)) outs ∧
    (∀ o, In o outs → (In o s ∧ ¬ In o f) ∨ (In o f ∧ ¬ In o s)) ∧
    (∀ v, r !! "total_activated" = Some v →
          ∃ z, v = PInt z ∧ sum_activated s = Ok z) ∧
    (r !! "error" = None →
       Forall2 outcome_for (merchants_of self) outs ∧
       is_Some (r !! "total_activated")).
Proof.
  intros H. apply run_returns in H.
  assert (∀ outs o, In o outs →
    (In o (List.filter PaybackActivator.succeeded outs) ∧
     ¬ In o (List.filter (λ o, negb (PaybackActivator.succeeded o)) outs)) ∨
    (In o (List.filter (λ o, negb (PaybackActivator.succeeded o)) outs) ∧
     ¬ In o (List.filter PaybackActivator.succeeded outs))) as Hsplit.
  { intros outs o Hin. rewrite !filter_In.
    destruct (PaybackActivator.succeeded o); [left | right];
      (split; [done | intros [_ ?]; done]). }
  destruct H as [Hms | e Hms | outs ta tv sp hp Hms Hall Hsum].
  - exists [], [], []. repeat split; try done.
  - exists [], [], []. repeat split; try done.
  - exists outs, (List.filter PaybackActivator.succeeded outs),
      (List.filter (λ o, negb (PaybackActivator.succeeded o)) outs).
    repeat split; try done; eauto.
    intros v [= <-]. eauto.
Qed.

End Activation.

Lemma run_totals_and_partition_witness :
  PaybackActivator.run Scenario.mixed (Scenario.activator Scenario.two_merchants) []
    = (Ok Scenario.mixed_summary, Scenario.mixed_trace) ∧
  Scenario.mixed_summary !! "total_activated" = Some (PInt 3) ∧
  ∃ outs s f,
    Scenario.mixed_summary !! "successful" = Some (PList (PDict <$> s)) ∧
    Scenario.mixed_summary !! "failed" = Some (PList (PDict <$> f)) ∧
    s = List.filter PaybackActivator.succeeded outs ∧
    f = List.filter (λ o, negb (PaybackActivator.succeeded o)) outs ∧
    (∀ o, In o outs → (In o s ∧ ¬ In o f) ∨ (In o f ∧ ¬ In o s)) ∧
    (∀ v, Scenario.mixed_summary !! "total_activated" = Some v →
          ∃ z, v = PInt z ∧ sum_activated s = Ok z) ∧
    (Scenario.mixed_summary !! "error" = None →
       Forall2 outcome_for
         (merchants_of (Scenario.activator Scenario.two_merchants)) outs ∧
       is_Some (Scenario.mixed_summary !! "total_activated")).
Proof.
  assert (PaybackActivator.run Scenario.mixed
            (Scenario.activator Scenario.two_merchants) []
          = (Ok Scenario.mixed_summary, Scenario.mixed_trace)) as Hrun
    by (vm_compute; reflexivity).
  split; [exact Hrun | split; [reflexivity | ]].
  exact (run_totals_and_partition _ _ _ _ _ Hrun).
Defined.

Lemma both_wire_shapes_witness :
  Scenario.text_activated_3_of_5 ≠ EmptyString ∧
  PaybackActivator.process_results Scenario.mixed "A" "A1"
    (Scenario.envelope Scenario.text_activated_3_of_5) []
  = PaybackActivator.process_results Scenario.mixed "A" "A1"
      (PStr Scenario.text_activated_3_of_5) [] ∧
  (PaybackActivator.process_results Scenario.mixed "A" "A1"
     (PStr Scenario.text_activated_3_of_5) []).1 = Ok Scenario.outcome_A.
Proof.
  assert (Scenario.text_activated_3_of_5 ≠ EmptyString) as Hs
    by (vm_compute; discriminate).
  split; [exact Hs | split; [ | vm_compute; reflexivity]].
  eapply (both_wire_shapes_same_outcome Scenario.mixed "A" "A1" _ _ _ _ []
            Hs); reflexivity.
Defined.

Lemma failed_payload_witness :
  let t2 := (PaybackActivator.retrieve_results Scenario.broken
               (Scenario.activator (Scenario.only Scenario.merchant_D))
               "D" "D4" []).2 in
  PaybackActivator.parse_results Scenario.broken (PStr "<html>")
    = Raise "Expecting value: line 1 column 1 (char 0)" ∧
  ∃ msg,
    PaybackActivator.process_merchants Scenario.broken
      (Scenario.activator (Scenario.only Scenario.merchant_D))
      [Scenario.merchant_D; Scenario.merchant_F] Scenario.no_outcomes []
    = PaybackActivator.process_merchants Scenario.broken
        (Scenario.activator (Scenario.only Scenario.merchant_D))
        [Scenario.merchant_F]
        {| PaybackActivator.activation_results :=
             [PaybackActivator.failure_outcome "D" "D4"
                (PStr "Expecting value: line 1 column 1 (char 0)")];
           PaybackActivator.successful := [];
           PaybackActivator.failed :=
             [PaybackActivator.failure_outcome "D" "D4"
                (PStr "Expecting value: line 1 column 1 (char 0)")] |}
        (t2 ++ [Log ERROR msg; Sleep 2]).
Proof.
  intros t2. split; [reflexivity | ].
  destruct (failed_payload_is_isolated Scenario.broken
              (Scenario.activator (Scenario.only Scenario.merchant_D))
              [] Scenario.merchant_D [Scenario.merchant_F]
              Scenario.no_outcomes [] Scenario.no_outcomes []
              (PStr "<html>") t2
              "Expecting value: line 1 column 1 (char 0)")
    as (msg & _ & _ & _ & Hloop).
  - reflexivity.
  - vm_compute. discriminate.
  - vm_compute. reflexivity.
  - right. split; reflexivity.
  - exists msg. exact Hloop.
Defined.

Lemma missing_partner_id_witness :
  PaybackActivator.partner_id_of Scenario.merchant_C = EmptyString ∧
  PaybackActivator.process_merchants Scenario.unidentified
    (Scenario.activator (Scenario.only Scenario.merchant_C))
    [Scenario.merchant_C; Scenario.merchant_F] Scenario.no_outcomes []
  = PaybackActivator.process_merchants Scenario.unidentified
      (Scenario.activator (Scenario.only Scenario.merchant_C))
      [Scenario.merchant_F]
      {| PaybackActivator.activation_results := [];
         PaybackActivator.successful := [];
         PaybackActivator.failed :=
           [PaybackActivator.no_partner_id_outcome "C"] |}
      [Log WARNING "Skipping C: No partner_id specified"].
Proof.
  split; [reflexivity | ].
  destruct (missing_partner_id_is_rejected Scenario.unidentified
              (Scenario.activator (Scenario.only Scenario.merchant_C))
              [] Scenario.merchant_C [Scenario.merchant_F]
              Scenario.no_outcomes [] Scenario.no_outcomes [])
    as (_ & _ & Hloop & _).
  - reflexivity.
  - reflexivity.
  - exact Hloop.
Defined.

(** ** Counting the outcomes *)

Lemma filter_split_length {A} (f : A → bool) (l : list A) :
  (length (List.filter f l) + length (List.filter (λ x, negb (f x)) l))%nat
  = length l.
Proof.
  induction l as [|x l IH]; [done | ]. cbn [List.filter].
  destruct (f x); cbn [negb length]; lia.
Qed.

Lemma outcome_for_attempted m o :
  outcome_for m o → attempted o = has_partner_id m.
Proof.
  unfold outcome_for.
  destruct (has_partner_id m); [intros [[r ->] | [err ->]] | intros ->]; done.
Qed.

Lemma attempted_count ms outs :
  Forall2 outcome_for ms outs →
  length (List.filter attempted outs)
  = length (List.filter has_partner_id ms).
Proof.
  induction 1 as [|m o ms outs Ho _ IH]; [done | ].
  cbn [List.filter]. rewrite (outcome_for_attempted m o Ho).
  destruct (has_partner_id m); cbn [length]; lia.
Qed.

Lemma unidentified_failed ms outs :
  Forall2 outcome_for ms outs →
  (length (List.filter (λ m, negb (has_partner_id m)) ms)
   ≤ length (List.filter (λ o, negb (PaybackActivator.succeeded o)) outs))%nat.
Proof.
  induction 1 as [|m o ms outs Ho _ IH]; [done | ].
  cbn [List.filter]. unfold outcome_for in Ho.
  destruct (has_partner_id m); cbn [negb].
  - destruct (negb (PaybackActivator.succeeded o)); cbn [length]; lia.
  - subst o. assert (PaybackActivator.succeeded
                       (PaybackActivator.no_partner_id_outcome
                          (PaybackActivator.name_of m)) = false) as ->
      by reflexivity.
    cbn [negb length]. lia.
Qed.

Lemma result_list_successful acc ta tv sp hp :
  result_list (PaybackActivator.run_summary acc ta tv sp hp) "successful"
  = PDict <$> PaybackActivator.successful acc.
Proof. reflexivity. Qed.

Lemma result_list_failed acc ta tv sp hp :
  result_list (PaybackActivator.run_summary acc ta tv sp hp) "failed"
  = PDict <$> PaybackActivator.failed acc.
Proof. reflexivity. Qed.

Section Run.
Context (E : environment).

(** C6, as the code has it: when [run] returns the summary (the dict
    without an [error]), the successful and the failed list together hold
    one outcome for each configured merchant, with or without a partner
    id; a merchant without a partner id is one of the failed outcomes, and
    the outcomes that carry a partner id are as many as the merchants that
    have one. *)
Theorem outcome_count_is_merchant_count self t r t' :
  PaybackActivator.run E self t = (Ok r, t') →
  r !! "error" = None →
  ∃ outs,
    r !! "successful"
      = Some (PList (PDict <$> List.filter PaybackActivator.succeeded outs)) ∧
    r !! "failed"
      = Some (PList (PDict <$> List.filter
                      (λ o, negb (PaybackActivator.succeeded o)) outs)) ∧
    (length (result_list r "successful") + length (result_list r "failed"))%nat
      = length (merchants_of self) ∧
    (length (List.filter (λ m, negb (has_partner_id m)) (merchants_of self))
     ≤ length (result_list r "failed"))%nat ∧
    length (List.filter attempted outs)
      = length (List.filter has_partner_id (merchants_of self)).
Proof.
  intros H Herr. apply run_returns in H.
  destruct H as [Hms | e Hms | outs ta tv sp hp Hms Hall Hsum];
    [discriminate Herr | discriminate Herr | ].
  exists outs. split; [reflexivity | split; [reflexivity | ]].
  rewrite result_list_successful, result_list_failed.
  cbn [partition_of PaybackActivator.successful PaybackActivator.failed].
  rewrite !length_fmap, filter_split_length.
  split; [by apply Forall2_length in Hall | ].
  split; [by apply unidentified_failed | by apply attempted_count].
Qed.

End Run.

Lemma outcome_count_witness :
  PaybackActivator.run Scenario.mixed
    (Scenario.activator Scenario.two_merchants) []
    = (Ok Scenario.mixed_summary, Scenario.mixed_trace) ∧
  (length (result_list Scenario.mixed_summary "successful")
   + length (result_list Scenario.mixed_summary "failed"))%nat = 2%nat.
Proof.
  assert (PaybackActivator.run Scenario.mixed
            (Scenario.activator Scenario.two_merchants) []
          = (Ok Scenario.mixed_summary, Scenario.mixed_trace)) as Hrun
    by (vm_compute; reflexivity).
  split; [exact Hrun | ].
  destruct (outcome_count_is_merchant_count _ _ _ _ _ Hrun)
    as (outs & _ & _ & Hcount & _); [reflexivity | exact Hcount].
Defined.

(** C6, as the spec states it, fails for a configuration whose only
    merchant has no partner id: the run returns one failed outcome, and no
    merchant has a partner id. *)
Lemma outcome_count_counterexample :
  ∃ r t',
    PaybackActivator.run Scenario.unidentified
      (Scenario.activator (Scenario.only Scenario.merchant_C)) [] = (Ok r, t') ∧
    result_list r "successful" = [] ∧
    result_list r "failed"
      = [PDict (PaybackActivator.no_partner_id_outcome "C")] ∧
    (length (result_list r "successful") + length (result_list r "failed"))%nat
    ≠ length (List.filter has_partner_id
                (merchants_of
                   (Scenario.activator (Scenario.only Scenario.merchant_C)))).
Proof.
  eexists _, _. split; [vm_compute; reflexivity | ].
  split; [reflexivity | split; [reflexivity | ]].
  vm_compute. discriminate.
Qed.

(** ** The exit code *)

Section ExitCode.
Context (E : environment).

Lemma main_async_lists username password config_path headless t r t' :
  PaybackActivator.main_async E username password config_path headless t
    = (Ok r, t') →
  ∃ s f, r !! "successful" = Some (PList s) ∧ r !! "failed" = Some (PList f).
Proof.
  unfold PaybackActivator.main_async. intros H.
  apply bind_Ok in H as (activator & t1 & _ & H).
  apply run_returns in H. by apply run_result_lists in H.
Qed.

Lemma run_and_notify_lists a t r t' :
  Activate.run_and_notify E a t = (Ok r, t') →
  ∃ s f, r !! "successful" = Some (PList s) ∧ r !! "failed" = Some (PList f).
Proof.
  unfold Activate.run_and_notify. intros H.
  apply bind_Ok in H as (results & t1 & Hrun & H).
  apply bind_Ok in H as (? & t2 & _ & H).
  injection H as <- _. by apply main_async_lists in Hrun.
Qed.

(** The code that lines 79-88 give for the two lists. *)
Lemma exit_code_of_lists (r : gmap string pyval) s f t :
  r !! "successful" = Some (PList s) →
  r !! "failed" = Some (PList f) →
  ∃ line,
    Activate.exit_code_of r t =
      (Ok (match f, s with
           | _ :: _, [] => 1
           | _, _ => 0
           end), t ++ [line]).
Proof.
  intros Hs Hf. unfold Activate.exit_code_of, dict_item.
  rewrite Hf, Hs. msimpl. cbn [py_len]. msimpl.
  destruct f as [|o f].
  - cbn [length Z.of_nat Z.ltb Z.compare]. msimpl. eauto.
  - assert ((0 <? Z.of_nat (length (o :: f))) = true) as ->
      by (apply Z.ltb_lt; cbn [length]; lia).
    msimpl. cbn [py_len]. msimpl.
    destruct s as [|o' s].
    + cbn [length Z.of_nat Z.eqb]. msimpl. eauto.
    + assert ((Z.of_nat (length (o' :: s)) =? 0) = false) as ->
        by (apply Z.eqb_neq; cbn [length]; lia).
      msimpl. eauto.
Qed.

(** C1: [main] always ends with exit code 0 or 1.  The code is 1 when
    the credentials are missing, when the run or the notification raises,
    and when the failed list of the results is not empty while the
    successful list is; it is 0 when the failed list is empty and when
    both lists are non-empty. *)
Theorem exit_code_classification a t :
  ∃ code t',
    Activate.main E a t = (Ok code, t') ∧
    (code = 0 ∨ code = 1) ∧
    if Activate.credentials_missing E a then code = 1
    else
      match (Activate.run_and_notify E a
               (t ++ [Log INFO "Starting AutoPunkte - Payback coupon activator"])).1
      with
      | Raise _ => code = 1
      | Ok results =>
          ∃ s f,
            results !! "successful" = Some (PList s) ∧
            results !! "failed" = Some (PList f) ∧
            (code = 1 ↔ f ≠ [] ∧ s = []) ∧
            (code = 0 ↔ f = [] ∨ (f ≠ [] ∧ s ≠ []))
      end.
Proof.
  unfold Activate.main.
  destruct (Activate.credentials_missing E a).
  - rewrite bind_unfold, log_eq, ret_eq. eauto 10.
  - rewrite bind_unfold, log_eq. unfold try_except. rewrite bind_unfold.
    destruct (Activate.run_and_notify E a _) as [[results|e] t1] eqn:Hrun.
    + destruct (run_and_notify_lists _ _ _ _ Hrun) as (s & f & Hs & Hf).
      destruct (exit_code_of_lists results s f t1 Hs Hf) as [line ->].
      cbn [fst]. eexists _, _. split; [reflexivity | ].
      split; [destruct f, s; auto | ].
      exists s, f. split; [exact Hs | split; [exact Hf | ]].
      destruct f, s; split; split; try done; try (intros [? ?]; done);
        try (intros [? | [? ?]]; done); auto.
    + rewrite bind_unfold, log_eq, ret_eq. cbn [fst]. eauto 10.
Qed.

End ExitCode.

(** The two scenarios of the spec for the exit code: a success next to a
    failure ends with 0, failures only end with 1. *)
Example mixed_scenario_exit_code :
  (Activate.main Scenario.mixed Scenario.command_line []).1 = Ok 0.
Proof. vm_compute. reflexivity. Qed.

Example all_failed_scenario_exit_code :
  (Activate.main Scenario.broken Scenario.command_line []).1 = Ok 1.
Proof. vm_compute. reflexivity. Qed.

Example missing_credentials_exit_code :
  (Activate.main Scenario.mixed
     {| Activate.config := "config.yaml";
        Activate.username := Some "user@example.org";
        Activate.password := None;
        Activate.log_level := INFO;
        Activate.no_notify := false;
        Activate.headless := true |} []).1 = Ok 1.
Proof. vm_compute. reflexivity. Qed.

(** ** A configuration without merchants *)

Section NoMerchants.
Context (E : environment).

Lemma run_without_merchants self t :
  merchants_of self = [] →
  PaybackActivator.run E self t =
    (Ok PaybackActivator.no_merchants_result,
     t ++ [Log WARNING
             "No merchants found in config. Please add at least one merchant."]).
Proof.
  unfold PaybackActivator.run, merchants_of. intros ->. by msimpl.
Qed.

Lemma init_with_config username password config_path headless cfg t :
  yaml_file E config_path = Ok cfg →
  ∃ self,
    PaybackActivator.__init__ E username password config_path headless t
      = (Ok self, t ++ [ReadConfig config_path]) ∧
    PaybackActivator.config self = cfg.
Proof.
  intros Hcfg.
  unfold PaybackActivator.__init__, PaybackActivator._load_config, try_except.
  msimpl. rewrite emit_eq. msimpl. rewrite Hcfg. msimpl. eauto.
Qed.

(** Nothing to report: both lists are empty, so [_should_notify] is
    false whatever the options are. *)
Lemma notify_nothing self t :
  Notifier.notify E self PaybackActivator.no_merchants_result t =
    (Ok false, t ++ [Log INFO "Notification skipped based on configuration"]).
Proof. unfold Notifier.notify. by msimpl. Qed.

Lemma notifier_init_quiet config_path t :
  ∃ notifier ext,
    Notifier.__init__ E config_path t = (Ok notifier, t ++ ext) ∧
    forallb (λ c, negb (is_browser_call c)) ext = true.
Proof.
  unfold Notifier.__init__, Notifier._load_config, try_except.
  destruct (str_truthy config_path).
  - msimpl. rewrite emit_eq. msimpl.
    destruct (yaml_file E _) as [cfg|e]; msimpl.
    + by eexists _, [_].
    + rewrite <- app_assoc. by eexists _, [_; _].
  - msimpl. eexists _, []. by rewrite app_nil_r.
Qed.

Lemma exit_code_of_no_merchants t :
  Activate.exit_code_of PaybackActivator.no_merchants_result t =
    (Ok 0, t ++ [Log INFO "All coupon activations successful"]).
Proof. reflexivity. Qed.

(** C10: with credentials and a configuration file that lists no
    merchant, [run] returns the aggregate of line 318 after the warning
    alone, and [main] ends with exit code 0 through the branch of line 87;
    no call reaches the browser. *)
Theorem no_merchants_configured a cfg t :
  Activate.credentials_missing E a = false →
  yaml_file E (Activate.config a) = Ok cfg →
  default [] (cfg_merchants cfg) = [] →
  (∀ self t0,
     PaybackActivator.config self = cfg →
     PaybackActivator.run E self t0 =
       (Ok PaybackActivator.no_merchants_result,
        t0 ++ [Log WARNING
                 "No merchants found in config. Please add at least one merchant."])) ∧
  PaybackActivator.no_merchants_result !! "successful" = Some (PList []) ∧
  PaybackActivator.no_merchants_result !! "failed" = Some (PList []) ∧
  PaybackActivator.no_merchants_result !! "error"
    = Some (PStr "No merchants configured") ∧
  ∃ ext,
    Activate.main E a t = (Ok 0, t ++ ext) ∧
    forallb (λ c, negb (is_browser_call c)) ext = true ∧
    last ext = Some (Log INFO "All coupon activations successful").
Proof.
  intros Hcred Hcfg Hms.
  split.
  { intros self t0 <-. by apply run_without_merchants. }
  split; [reflexivity | split; [reflexivity | split; [reflexivity | ]]].
  unfold Activate.main. rewrite Hcred. msimpl.
  unfold try_except, Activate.run_and_notify, PaybackActivator.main_async.
  msimpl.
  destruct (init_with_config
              (default EmptyString (Activate.credentials E a).1)
              (default EmptyString (Activate.credentials E a).2)
              (Activate.config a) (Activate.headless a) cfg
              (t ++ [Log INFO "Starting AutoPunkte - Payback coupon activator"])
              Hcfg) as (self & -> & Hself).
  msimpl. rewrite run_without_merchants by (unfold merchants_of; by rewrite Hself).
  msimpl.
  destruct (Activate.no_notify a); cbn [negb]; msimpl.
  - rewrite exit_code_of_no_merchants. msimpl.
    rewrite <- !app_assoc. eexists. split; [reflexivity | ]. by split.
  - match goal with
    | |- context [Notifier.__init__ E ?p ?t0] =>
        destruct (notifier_init_quiet p t0) as (notifier & ext & -> & Hext)
    end.
    msimpl. rewrite notify_nothing. msimpl.
    rewrite exit_code_of_no_merchants. msimpl.
    rewrite <- !app_assoc. eexists. split; [reflexivity | ].
    cbn [app forallb is_browser_call negb andb].
    rewrite forallb_app, Hext. split; [reflexivity | ].
    by rewrite !app_comm_cons, last_app.
Qed.

End NoMerchants.

Lemma no_merchants_witness :
  Activate.credentials_missing Scenario.empty Scenario.command_line = false ∧
  (Activate.main Scenario.empty Scenario.command_line []).1 = Ok 0 ∧
  navigations (Activate.main Scenario.empty Scenario.command_line []).2 = [].
Proof.
  split; [reflexivity | split; [ | vm_compute; reflexivity]].
  destruct (no_merchants_configured Scenario.empty Scenario.command_line
              Scenario.no_merchants [])
    as (_ & _ & _ & _ & ext & Hmain & _).
  - reflexivity.
  - reflexivity.
  - reflexivity.
  - by rewrite Hmain.
Defined.

(** ** Calls that a computation can make *)

Section OnlyCalls.
Context (P : call → bool).

Lemma only_calls_ret {A} (a : A) : only_calls P (mret a : M A).
Proof. intros t. exists []. by rewrite app_nil_r. Qed.

Lemma only_calls_raise {A} e : only_calls P (raise e : M A).
Proof. intros t. exists []. by rewrite app_nil_r. Qed.

Lemma only_calls_lift {A} (r : result A) : only_calls P (lift r).
Proof. intros t. exists []. by rewrite app_nil_r. Qed.

Lemma only_calls_now E : only_calls P (now E).
Proof. intros t. exists []. by rewrite app_nil_r. Qed.

Lemma only_calls_emit c : P c = true → only_calls P (emit c).
Proof. intros Hc t. exists [c]. simpl. by rewrite Hc. Qed.

Lemma only_calls_request E c : P c = true → only_calls P (request E c).
Proof. intros Hc t. exists [c]. simpl. by rewrite Hc. Qed.

Lemma only_calls_bind {A B} (m : M A) (f : A → M B) :
  only_calls P m → (∀ a, only_calls P (f a)) → only_calls P (m ≫= f).
Proof.
  intros Hm Hf t. rewrite bind_unfold.
  destruct (Hm t) as (ext1 & Ht1 & Hext1).
  destruct (m t) as [[a|e] t1]; cbn [snd] in Ht1; subst t1.
  - destruct (Hf a (t ++ ext1)) as (ext2 & Ht2 & Hext2).
    exists (ext1 ++ ext2). rewrite Ht2, app_assoc, forallb_app, Hext1, Hext2.
    done.
  - by exists ext1.
Qed.

Lemma only_calls_try_except {A} (body : M A) (handler : exn → M A) :
  only_calls P body → (∀ e, only_calls P (handler e)) →
  only_calls P (try_except body handler).
Proof.
  intros Hm Hf t. unfold try_except.
  destruct (Hm t) as (ext1 & Ht1 & Hext1).
  destruct (body t) as [[a|e] t1]; cbn [snd] in Ht1; subst t1.
  - by exists ext1.
  - destruct (Hf e (t ++ ext1)) as (ext2 & Ht2 & Hext2).
    exists (ext1 ++ ext2). rewrite Ht2, app_assoc, forallb_app, Hext1, Hext2.
    done.
Qed.

End OnlyCalls.

(** Break a computation down to its calls, and check each of them. *)
Ltac only_calls_tac :=
  repeat first
    [ apply only_calls_bind; [ | intros ? ]
    | apply only_calls_try_except; [ | intros ? ]
    | apply only_calls_ret
    | apply only_calls_raise
    | apply only_calls_lift
    | apply only_calls_now
    | apply only_calls_request; reflexivity
    | apply only_calls_emit; reflexivity ].

Lemma only_calls_attempts {A} (m : M A) t :
  only_calls (λ c, negb (is_activation c)) m →
  activation_attempts (m t).2 = activation_attempts t.
Proof.
  intros Hm. destruct (Hm t) as (ext & -> & Hext).
  rewrite activation_attempts_app.
  assert (activation_attempts ext = 0%nat) as ->; [ | lia].
  unfold activation_attempts.
  induction ext as [|c ext IH]; [done | ].
  cbn [forallb] in Hext. apply andb_prop in Hext as [Hc Hext].
  cbn [List.filter]. destruct (is_activation c); [done | by apply IH].
Qed.

(** ** Failures during the login *)

Section Authentication.
Context (E : environment).

Abbreviation quiet := (only_calls (λ c, negb (is_activation c))).

Lemma handle_cookie_consent_quiet : quiet (PaybackActivator.handle_cookie_consent E).
Proof. unfold PaybackActivator.handle_cookie_consent, log, sleep. only_calls_tac. Qed.

Lemma login_steps_quiet self : quiet (PaybackActivator.login_steps E self).
Proof.
  unfold PaybackActivator.login_steps, log, sleep.
  only_calls_tac.
Qed.

Lemma browser_options_quiet self : quiet (PaybackActivator.browser_options self).
Proof.
  unfold PaybackActivator.browser_options, log.
  destruct (_ && _); only_calls_tac.
Qed.

Lemma prepare_quiet self ms : quiet (PaybackActivator.prepare E self ms).
Proof.
  unfold PaybackActivator.prepare, log.
  apply only_calls_bind; [only_calls_tac | intros _].
  apply browser_options_quiet.
Qed.

(** The consent step never raises. *)
Lemma handle_cookie_consent_total t :
  ∃ ext, PaybackActivator.handle_cookie_consent E t = (Ok tt, t ++ ext).
Proof.
  unfold PaybackActivator.handle_cookie_consent, try_except.
  rewrite bind_unfold, request_eq.
  destruct (respond E t _); msimpl.
  - rewrite request_eq. destruct (respond E _ Click); msimpl.
    + rewrite <- !app_assoc. eauto.
    + rewrite <- !app_assoc. eauto.
  - rewrite <- !app_assoc. eauto.
Qed.

(** What [with_chrome] gives once the browser has started: the result of
    the body, unless the teardown raises. *)
Lemma with_chrome_entered {A} opts (body : M A) t v :
  respond E t (ChromeEnter opts) = Ok v →
  PaybackActivator.with_chrome E opts body t =
    (match respond E (body (t ++ [ChromeEnter opts])).2 ChromeExit with
     | Ok _ => (body (t ++ [ChromeEnter opts])).1
     | Raise e => Raise e
     end,
     (body (t ++ [ChromeEnter opts])).2 ++ [ChromeExit]).
Proof.
  intros Henter. unfold PaybackActivator.with_chrome.
  rewrite request_eq, Henter.
  destruct (body (t ++ [ChromeEnter opts])) as [r t2]. rewrite request_eq.
  cbn [fst snd]. by destruct (respond E t2 ChromeExit).
Qed.

(** C3, as the code has it.  Once the browser has started:
    - an exception of the steps before the probe (the script that enters
      the identifier, the click on continue, the script that enters the
      password, the click on submit) is not caught by [run]: after the
      teardown of the browser [run] raises, and returns no aggregate;
    - an exception of the probe is caught and logged, and [run] returns
      the aggregate with two empty lists and the error text that starts
      with [Login failed: ];
    - an exception of the consent step is caught and logged as a warning,
      and the flow goes on.
    In the first two cases the activation script is never sent. *)
Theorem authentication_failures self t opts t0 v :
  merchants_of self ≠ [] →
  PaybackActivator.prepare E self (merchants_of self) t = (Ok opts, t0) →
  respond E t0 (ChromeEnter opts) = Ok v →
  (∀ e t1,
     PaybackActivator.login_steps E self (t0 ++ [ChromeEnter opts])
       = (Raise e, t1) →
     PaybackActivator.run E self t =
       (match respond E t1 ChromeExit with
        | Ok _ => Raise e
        | Raise e' => Raise e'
        end, t1 ++ [ChromeExit]) ∧
     activation_attempts (t1 ++ [ChromeExit]) = activation_attempts t) ∧
  (∀ u e t1,
     PaybackActivator.login_steps E self (t0 ++ [ChromeEnter opts])
       = (Ok u, t1) →
     respond E t1 (ExecuteScript LoginProbeScript) = Raise e →
     let t2 := t1 ++ [ExecuteScript LoginProbeScript;
                      Log ERROR ("Error checking login status: " +:+ e)] in
     PaybackActivator.run E self t =
       (match respond E t2 ChromeExit with
        | Ok _ => Ok (PaybackActivator.login_failed_result e)
        | Raise e' => Raise e'
        end, t2 ++ [ChromeExit]) ∧
     activation_attempts (t2 ++ [ChromeExit]) = activation_attempts t ∧
     PaybackActivator.login_failed_result e !! "successful" = Some (PList []) ∧
     PaybackActivator.login_failed_result e !! "failed" = Some (PList []) ∧
     PaybackActivator.login_failed_result e !! "error"
       = Some (PStr ("Login failed: " +:+ e))) ∧
  (∀ t3,
     (∃ ext, PaybackActivator.handle_cookie_consent E t3 = (Ok tt, t3 ++ ext)) ∧
     ∀ e, respond E t3 (FindElement cookie_selector) = Raise e →
          PaybackActivator.handle_cookie_consent E t3 =
            (Ok tt, t3 ++ [FindElement cookie_selector;
                           Log WARNING ("Could not find or click cookie button: "
                                        +:+ e)])).
Proof.
  intros Hms Hprepare Henter.
  assert (PaybackActivator.run E self t =
            PaybackActivator.with_chrome E opts
              (PaybackActivator.session E self (merchants_of self)) t0) as Hrun.
  { unfold PaybackActivator.run. fold (merchants_of self).
    destruct (merchants_of self) as [|m ms]; [done | ].
    by rewrite (bind_step _ _ _ _ _ Hprepare). }
  assert (activation_attempts (t0 ++ [ChromeEnter opts]) = activation_attempts t)
    as Hstart.
  { rewrite activation_attempts_app.
    pose proof (only_calls_attempts _ t (prepare_quiet self (merchants_of self)))
      as Hquiet.
    rewrite Hprepare in Hquiet. cbn [snd] in Hquiet. rewrite Hquiet.
    cbn. lia. }
  rewrite Hrun, (with_chrome_entered _ _ _ _ Henter).
  split; [ | split].
  - intros e t1 Hlogin.
    pose proof (only_calls_attempts _ (t0 ++ [ChromeEnter opts])
                  (login_steps_quiet self)) as Hquiet.
    rewrite Hlogin in Hquiet. cbn [snd] in Hquiet.
    unfold PaybackActivator.session.
    rewrite (bind_fail _ _ _ _ _ Hlogin). cbn [fst snd].
    split; [done | ].
    rewrite activation_attempts_app, Hquiet, Hstart. cbn. lia.
  - intros u e t1 Hlogin Hprobe t2.
    pose proof (only_calls_attempts _ (t0 ++ [ChromeEnter opts])
                  (login_steps_quiet self)) as Hquiet.
    rewrite Hlogin in Hquiet. cbn [snd] in Hquiet.
    unfold PaybackActivator.session.
    rewrite (bind_step _ _ _ _ _ Hlogin).
    unfold PaybackActivator.check_login_status, try_except.
    rewrite !bind_unfold, request_eq, Hprobe. msimpl.
    rewrite <- !app_assoc. cbn [fst snd app]. fold t2.
    split; [done | ].
    split; [ | by repeat split].
    unfold t2. rewrite !activation_attempts_app, Hquiet, Hstart. cbn. lia.
  - intros t3. split; [apply handle_cookie_consent_total | ].
    intros e Hfind.
    unfold PaybackActivator.handle_cookie_consent, try_except.
    fold cookie_selector.
    rewrite bind_unfold, request_eq, Hfind. msimpl.
    by rewrite <- !app_assoc.
Qed.

End Authentication.

Lemma authentication_failures_witness :
  merchants_of (Scenario.activator (Scenario.only Scenario.merchant_A)) ≠ [] ∧
  (PaybackActivator.run Scenario.probe_broken
     (Scenario.activator (Scenario.only Scenario.merchant_A)) []).1
  = Ok (PaybackActivator.login_failed_result "Target closed") ∧
  activation_attempts
    (PaybackActivator.run Scenario.probe_broken
       (Scenario.activator (Scenario.only Scenario.merchant_A)) []).2 = 0%nat.
Proof.
  assert (merchants_of (Scenario.activator (Scenario.only Scenario.merchant_A))
          ≠ []) as Hms by (vm_compute; discriminate).
  split; [exact Hms | ].
  destruct (authentication_failures Scenario.probe_broken
              (Scenario.activator (Scenario.only Scenario.merchant_A)) []
              Scenario.entry_options Scenario.entry_trace PNone Hms)
    as (_ & Hprobe & _).
  - vm_compute. reflexivity.
  - reflexivity.
  - destruct (Hprobe tt "Target closed"
                (PaybackActivator.login_steps Scenario.probe_broken
                   (Scenario.activator (Scenario.only Scenario.merchant_A))
                   (Scenario.entry_trace ++ [ChromeEnter Scenario.entry_options])).2)
      as (Hrun & Hattempts & _).
    + vm_compute. reflexivity.
    + reflexivity.
    + rewrite Hrun. cbn [fst snd]. split; [reflexivity | exact Hattempts].
Defined.

(** C3, as the spec states it, fails in two ways.  When the script that
    enters the identifier raises, [run] raises the same exception: it
    returns no aggregate and logs nothing about it.  When the consent
    step raises, the run is not aborted: it goes on to the merchant and
    returns the summary. *)
Lemma authentication_failure_counterexample :
  (∀ t, respond Scenario.login_broken t
          (ExecuteScript (UsernameScript "user@example.org"))
        = Raise "Cannot read properties of null") ∧
  (PaybackActivator.run Scenario.login_broken
     (Scenario.activator (Scenario.only Scenario.merchant_A)) []).1
  = Raise "Cannot read properties of null" ∧
  List.filter (λ c, match c with Log ERROR _ => true | _ => false end)
    (PaybackActivator.run Scenario.login_broken
       (Scenario.activator (Scenario.only Scenario.merchant_A)) []).2 = [] ∧
  (∀ t, respond Scenario.consent_broken t (FindElement cookie_selector)
        = Raise "Element not found") ∧
  (∃ r, (PaybackActivator.run Scenario.consent_broken
           (Scenario.activator (Scenario.only Scenario.merchant_A)) []).1 = Ok r ∧
        r !! "error" = None ∧
        result_list r "successful" = [PDict Scenario.outcome_A]) ∧
  activation_attempts
    (PaybackActivator.run Scenario.consent_broken
       (Scenario.activator (Scenario.only Scenario.merchant_A)) []).2 = 1%nat.
Proof.
  split; [reflexivity | ].
  split; [vm_compute; reflexivity | ].
  split; [vm_compute; reflexivity | ].
  split; [reflexivity | ].
  split; [ | vm_compute; reflexivity].
  eexists. split; [vm_compute; reflexivity | ].
  split; vm_compute; reflexivity.
Qed.

(** ** The evidence of the run *)

Section Evidence.
Context (E : environment).

(** The write of the markup file never raises: it logs the success or
    the error. *)
Lemma save_html_total html_path html_content t :
  PaybackActivator.save_html E html_path html_content t =
    (Ok tt,
     t ++ [WriteFile html_path html_content;
           match respond E t (WriteFile html_path html_content) with
           | Ok _ => Log INFO ("HTML content saved to " +:+ html_path)
           | Raise e => Log ERROR ("Error saving HTML content: " +:+ e)
           end]).
Proof.
  unfold PaybackActivator.save_html, try_except.
  rewrite bind_unfold, request_eq.
  destruct (respond E t _); msimpl; by rewrite <- app_assoc.
Qed.

(** C8, as the code has it: once the loop, the summary, the screenshot
    and the retrieval of the markup are done, a failure to write the
    markup file is logged as an error and leaves the returned dict as it
    is: the same lists, totals and paths as when the write succeeds. *)
Theorem markup_write_failure_is_harmless self ms t tallied t1 evidence t2 :
  PaybackActivator.tally E self ms t = (Ok tallied, t1) →
  PaybackActivator.fetch_evidence E t1 = (Ok evidence, t2) →
  PaybackActivator.activation_workflow E self ms t =
    (Ok (PaybackActivator.run_summary tallied.1 tallied.2.1 tallied.2.2
           evidence.1.1 evidence.1.2),
     t2 ++ [WriteFile evidence.1.2 evidence.2;
            match respond E t2 (WriteFile evidence.1.2 evidence.2) with
            | Ok _ => Log INFO ("HTML content saved to " +:+ evidence.1.2)
            | Raise e => Log ERROR ("Error saving HTML content: " +:+ e)
            end;
            Log INFO "===== END OF ACTIVATED COUPONS OVERVIEW ====="]).
Proof.
  intros Htally Hfetch.
  unfold PaybackActivator.activation_workflow,
    PaybackActivator.capture_evidence.
  rewrite (bind_step _ _ _ _ _ Htally).
  rewrite bind_unfold. rewrite (bind_step _ _ _ _ _ Hfetch).
  rewrite bind_unfold, save_html_total. msimpl.
  by rewrite <- app_assoc.
Qed.

End Evidence.

Lemma markup_write_failure_witness :
  respond Scenario.write_broken Scenario.evidence_trace
    (WriteFile "payback_coupons_20250101_120000.html" PNone)
  = Raise "Permission denied" ∧
  PaybackActivator.activation_workflow Scenario.write_broken
    (Scenario.activator (Scenario.only Scenario.merchant_A))
    [Scenario.merchant_A] []
  = (Ok Scenario.summary_A,
     Scenario.evidence_trace
     ++ [WriteFile "payback_coupons_20250101_120000.html" PNone;
         Log ERROR "Error saving HTML content: Permission denied";
         Log INFO "===== END OF ACTIVATED COUPONS OVERVIEW ====="]) ∧
  (PaybackActivator.activation_workflow Scenario.working
     (Scenario.activator (Scenario.only Scenario.merchant_A))
     [Scenario.merchant_A] []).1 = Ok Scenario.summary_A.
Proof.
  split; [reflexivity | split; [ | vm_compute; reflexivity]].
  apply (markup_write_failure_is_harmless Scenario.write_broken
           (Scenario.activator (Scenario.only Scenario.merchant_A))
           [Scenario.merchant_A] [] Scenario.tallied Scenario.tallied_trace
           Scenario.evidence Scenario.evidence_trace).
  - vm_compute. reflexivity.
  - vm_compute. reflexivity.
Defined.

(** C8, as the spec states it, fails when the screenshot cannot be
    taken: with the same merchant, the same page and the same successful
    activation, [run] raises instead of returning the two lists, and
    [main] ends with 1 instead of 0. *)
Lemma evidence_failure_counterexample :
  (PaybackActivator.run Scenario.working
     (Scenario.activator (Scenario.only Scenario.merchant_A)) []).1
  = Ok Scenario.summary_A ∧
  (Activate.main Scenario.working Scenario.command_line []).1 = Ok 0 ∧
  (∀ t path, respond Scenario.screenshot_broken t (GetScreenshot path)
             = Raise "Page.captureScreenshot timed out") ∧
  (PaybackActivator.run Scenario.screenshot_broken
     (Scenario.activator (Scenario.only Scenario.merchant_A)) []).1
  = Raise "Page.captureScreenshot timed out" ∧
  (Activate.main Scenario.screenshot_broken Scenario.command_line []).1 = Ok 1.
Proof.
  split; [vm_compute; reflexivity | ].
  split; [vm_compute; reflexivity | ].
  split; [reflexivity | ].
  split; vm_compute; reflexivity.
Qed.

(** ** The activation script on a page of activated coupons *)

Section AlreadyActivated.
Context {dom node : Type} (api : ActivationScript.dom_api dom node).

Import ActivationScript.

Lemma first_match_none d root candidates :
  forallb (λ s, bool_decide (querySelector api d root s = None)) candidates
    = true →
  first_match api d root candidates = None.
Proof.
  induction candidates as [|c cs IH]; [done | ].
  cbn [forallb first_match]. intros [Hc Hcs]%andb_prop.
  apply bool_decide_eq_true in Hc. rewrite Hc. by apply IH.
Qed.

Lemma first_match_some d root candidates :
  existsb (λ s, bool_decide (is_Some (querySelector api d root s))) candidates
    = true →
  is_Some (first_match api d root candidates).
Proof.
  induction candidates as [|c cs IH]; [done | ].
  cbn [existsb first_match]. intros H.
  destruct (querySelector api d root c) as [n|] eqn:Hc; [by eexists | ].
  apply orb_prop in H as [H | H]; [ | by apply IH].
  apply bool_decide_eq_true in H. by destruct H.
Qed.

Lemma find_none {A} (f : A → bool) l :
  forallb (λ x, negb (f x)) l = true → List.find f l = None.
Proof.
  induction l as [|x l IH]; [done | ].
  cbn [forallb List.find]. intros [Hx Hl]%andb_prop.
  destruct (f x); [done | by apply IH].
Qed.

(** The script clicks nothing on a coupon in the activated state, and
    reports it as already activated. *)
Lemma process_coupon_activated d coupon :
  already_activated api d coupon = true →
  process_coupon api d coupon = (d, AlreadyActivated).
Proof.
  unfold already_activated, process_coupon, find_button.
  destruct (shadowRoot api d coupon) as [coupon_root|]; [ | done].
  destruct (first_match api d coupon_root callToActionSelectors)
    as [callToAction|]; [ | done].
  destruct (shadowRoot api d callToAction) as [action_root|]; [ | done].
  intros [[Hsel Htext]%andb_prop Hact]%andb_prop.
  rewrite (first_match_none _ _ _ Hsel), (find_none _ _ Htext).
  by destruct (first_match_some _ _ _ Hact) as [button ->].
Qed.

Lemma process_coupons_activated d coupons : ∀ count,
  forallb (already_activated api d) coupons = true →
  process_coupons api d coupons count =
    (d, count, List.repeat AlreadyActivated (length coupons)).
Proof.
  induction coupons as [|c cs IH]; intros count; [done | ].
  cbn [forallb process_coupons]. intros [Hc Hcs]%andb_prop.
  by rewrite (process_coupon_activated _ _ Hc), (IH _ Hcs).
Qed.

(** C9, as the code has it: on a page on which every coupon is already
    activated the script clicks nothing and leaves the page as it is; its
    result has [success] true and [activated] 0, so the outcome of the
    merchant is a success with zero activations and not an error.  The
    flag [alreadyActivated] is set only when the coupon center has no
    container of published coupons: with the container there, the result
    has no such key and the outcome's flag is false. *)
Theorem all_activated_outcome E d name pid t :
  all_activated api d = true →
  ∃ results statuses msg,
    activation_script api d = (d, results, statuses) ∧
    Forall (λ s, s = AlreadyActivated) statuses ∧
    results !! "success" = Some (PBool true) ∧
    results !! "activated" = Some (PInt 0) ∧
    results !! "alreadyActivated"
      = match coupon_container api d with
        | Some None => Some (PBool true)
        | _ => None
        end ∧
    PaybackActivator.outcome_of_results E name pid (PDict results) t
      = (Ok (PaybackActivator.success_outcome name pid results),
         t ++ [Log INFO msg]) ∧
    PaybackActivator.success_outcome name pid results !! "success"
      = Some (PBool true) ∧
    PaybackActivator.success_outcome name pid results !! "activated"
      = Some (PInt 0) ∧
    PaybackActivator.success_outcome name pid results !! "alreadyActivated"
      = Some (PBool match coupon_container api d with
                    | Some None => true
                    | _ => false
                    end).
Proof.
  unfold all_activated, coupon_container, activation_script.
  destruct (document_querySelector api d "#coupon-center" ≫= shadowRoot api d)
    as [center_root|]; [ | done].
  cbn [mbind option_bind].
  destruct (first_match api d center_root selectors) as [container|].
  - intros Hall. rewrite (process_coupons_activated _ _ _ Hall).
    eexists _, _, _. split; [reflexivity | ].
    split; [apply List.Forall_forall; intros s Hs; by apply repeat_spec in Hs | ].
    split; [reflexivity | split; [reflexivity | split; [reflexivity | ]]].
    split; [ | by repeat split].
    unfold PaybackActivator.outcome_of_results.
    change (truthy (dict_get _ "success" PNone)) with true.
    change (truthy (dict_get _ "alreadyActivated" PNone)) with false.
    cbv iota. msimpl. reflexivity.
  - intros _. eexists _, _, _. split; [reflexivity | ].
    split; [constructor | ].
    split; [reflexivity | split; [reflexivity | split; [reflexivity | ]]].
    split; [ | by repeat split].
    unfold PaybackActivator.outcome_of_results.
    change (truthy (dict_get _ "success" PNone)) with true.
    change (truthy (dict_get _ "alreadyActivated" PNone)) with true.
    cbv iota. msimpl. reflexivity.
Qed.

End AlreadyActivated.

Lemma all_activated_witness :
  ActivationScript.all_activated Scenario.bare_center_page tt = true ∧
  ∃ results statuses msg,
    ActivationScript.activation_script Scenario.bare_center_page tt
      = (tt, results, statuses) ∧
    PaybackActivator.outcome_of_results Scenario.mixed "A" "A1" (PDict results) []
      = (Ok (PaybackActivator.success_outcome "A" "A1" results),
         [] ++ [Log INFO msg]) ∧
    PaybackActivator.success_outcome "A" "A1" results !! "activated"
      = Some (PInt 0) ∧
    PaybackActivator.success_outcome "A" "A1" results !! "alreadyActivated"
      = Some (PBool true).
Proof.
  assert (ActivationScript.all_activated Scenario.bare_center_page tt = true)
    as Hall by reflexivity.
  split; [exact Hall | ].
  destruct (all_activated_outcome Scenario.bare_center_page Scenario.mixed tt
              "A" "A1" [] Hall)
    as (results & statuses & msg & Hscript & _ & _ & _ & _ & Hout & _ & Hact
        & Hflag).
  exists results, statuses, msg. repeat split; assumption.
Defined.

(** C9, as the spec states it, fails on a page whose only coupon has its
    button in the activated state: the script clicks nothing and reports
    the coupon as already activated, its result has no [alreadyActivated]
    key, and the flag of the outcome is false. *)
Lemma all_activated_counterexample :
  ActivationScript.all_activated Scenario.activated_page tt = true ∧
  ActivationScript.activation_script Scenario.activated_page tt
    = (tt,
       {[ "success" := PBool true; "activated" := PInt 0; "total" := PInt 1 ]},
       [ActivationScript.AlreadyActivated]) ∧
  ∃ o,
    (PaybackActivator.outcome_of_results Scenario.mixed "A" "A1"
       (PDict (ActivationScript.activation_script
                 Scenario.activated_page tt).1.2) []).1 = Ok o ∧
    o !! "success" = Some (PBool true) ∧
    o !! "activated" = Some (PInt 0) ∧
    o !! "alreadyActivated" = Some (PBool false).
Proof.
  split; [reflexivity | split; [vm_compute; reflexivity | ]].
  eexists. split; [vm_compute; reflexivity | ].
  repeat split; vm_compute; reflexivity.
Qed.

(** * Further properties of the code *)

(** ** The value retrieved from the page *)

Section RetrievedValue.
Context (E : environment).

(** Whatever value the page returns, lines 247-308 return a dict and
    raise nothing: the dict names the partner, its [success] is a Python
    bool, a success carries the two counts and no [error], a failure
    carries an [error] and no counts, and one line is logged, at level
    INFO for a success and ERROR for a failure. *)
Theorem process_results_always_an_outcome name pid v t :
  ∃ o lvl msg,
    PaybackActivator.process_results E name pid v t
      = (Ok o, t ++ [Log lvl msg]) ∧
    o !! "partner_name" = Some (PStr name) ∧
    o !! "partner_id" = Some (PStr pid) ∧
    ((o !! "success" = Some (PBool true) ∧ o !! "error" = None ∧
      is_Some (o !! "activated") ∧ is_Some (o !! "total") ∧ lvl = INFO) ∨
     (o !! "success" = Some (PBool false) ∧ is_Some (o !! "error") ∧
      o !! "activated" = None ∧ o !! "total" = None ∧ lvl = ERROR)).
Proof.
  assert (∀ err msg,
    ∃ o lvl msg0,
      (Ok (PaybackActivator.failure_outcome name pid err), t ++ [Log ERROR msg])
        = (Ok o, t ++ [Log lvl msg0]) ∧
      o !! "partner_name" = Some (PStr name) ∧
      o !! "partner_id" = Some (PStr pid) ∧
      ((o !! "success" = Some (PBool true) ∧ o !! "error" = None ∧
        is_Some (o !! "activated") ∧ is_Some (o !! "total") ∧ lvl = INFO) ∨
       (o !! "success" = Some (PBool false) ∧ is_Some (o !! "error") ∧
        o !! "activated" = None ∧ o !! "total" = None ∧ lvl = ERROR)))
    as Hfailure.
  { intros err msg. eexists _, _, _. split; [reflexivity | ].
    split; [reflexivity | split; [reflexivity | right]].
    repeat split; by eexists. }
  unfold PaybackActivator.process_results.
  destruct (truthy v); [ | msimpl; apply Hfailure].
  unfold try_except. msimpl.
  destruct (PaybackActivator.parse_results E v) as [results|e];
    [ | msimpl; apply Hfailure].
  destruct results as [| | | | |r];
    try (rewrite outcome_of_results_not_dict by congruence;
         msimpl; apply Hfailure).
  unfold PaybackActivator.outcome_of_results.
  destruct (truthy (dict_get r "success" PNone)); [ | msimpl; apply Hfailure].
  destruct (truthy (dict_get r "alreadyActivated" PNone)); msimpl;
    (eexists _, _, _; split; [reflexivity | ];
     split; [reflexivity | split; [reflexivity | left]];
     repeat split; by eexists).
Qed.

(** A value that parses to something other than a JSON object (a list, a
    number, a string, [null]) is a failure of the merchant: the call of
    [results.get] raises [AttributeError], and its text is the error of
    the outcome. *)
Theorem non_object_payload_is_failure name pid v results t :
  truthy v = true →
  PaybackActivator.parse_results E v = Ok results →
  (∀ d, results ≠ PDict d) →
  let text := "'" +:+ type_name results +:+ "' object has no attribute 'get'" in
  PaybackActivator.process_results E name pid v t =
    (Ok (PaybackActivator.failure_outcome name pid (PStr text)),
     t ++ [Log ERROR ("Error processing activation results for " +:+ name
                      +:+ ": " +:+ text)]).
Proof.
  intros Hv Hparse Hresults text.
  unfold PaybackActivator.process_results, try_except.
  rewrite Hv. msimpl. rewrite Hparse.
  rewrite outcome_of_results_not_dict by done. by msimpl.
Qed.

(** An envelope whose inner dicts lack the [result] or the [value] key
    hands the default text [{}] to [json.loads]; when that parses to the
    empty object, the outcome is the failure with the error
    [Unknown error]. *)
Theorem envelope_without_value name pid (d r : gmap string pyval) t :
  d !! "result" = Some (PDict r) →
  (r !! "result" = None ∨
   ∃ rr, r !! "result" = Some (PDict rr) ∧ rr !! "value" = None) →
  PaybackActivator.parse_results E (PDict d) = json_loads E (PStr "{}") ∧
  (json_loads E (PStr "{}") = Ok (PDict ∅) →
   PaybackActivator.process_results E name pid (PDict d) t =
     (Ok (PaybackActivator.failure_outcome name pid (PStr "Unknown error")),
      t ++ [Log ERROR ("Activation failed for " +:+ name +:+ ": "
                       +:+ py_str E (PStr "Unknown error"))])).
Proof.
  intros Hd Hr.
  assert (PaybackActivator.parse_results E (PDict d)
          = json_loads E (PStr "{}")) as Hparse.
  { unfold PaybackActivator.parse_results.
    rewrite bool_decide_eq_true_2 by (rewrite Hd; eauto).
    unfold dict_get. rewrite Hd. cbn [default from_option id py_get].
    destruct Hr as [Hr | (rr & Hr & Hrr)]; unfold dict_get; rewrite Hr;
      cbn [default from_option id py_get]; unfold dict_get.
    - by rewrite lookup_empty.
    - by rewrite Hrr. }
  split; [exact Hparse | ]. intros Hempty.
  unfold PaybackActivator.process_results, try_except.
  assert (truthy (PDict d) = true) as ->.
  { simpl. rewrite bool_decide_eq_false_2; [done | ].
    intros ->. by rewrite lookup_empty in Hd. }
  msimpl. rewrite Hparse, Hempty.
  unfold PaybackActivator.outcome_of_results.
  change (truthy (dict_get ∅ "success" PNone)) with false.
  cbv iota. msimpl. reflexivity.
Qed.

End RetrievedValue.

Lemma non_object_payload_witness :
  PaybackActivator.parse_results Cases.odd_payloads (PStr "[1, 2]")
    = Ok (PList [PInt 1; PInt 2]) ∧
  PaybackActivator.process_results Cases.odd_payloads "A" "A1" (PStr "[1, 2]") []
  = (Ok (PaybackActivator.failure_outcome "A" "A1"
           (PStr "'list' object has no attribute 'get'")),
     [Log ERROR "Error processing activation results for A: 'list' object has no attribute 'get'"]).
Proof.
  split; [reflexivity | ].
  apply (non_object_payload_is_failure Cases.odd_payloads "A" "A1"
           (PStr "[1, 2]") (PList [PInt 1; PInt 2]) []).
  - reflexivity.
  - reflexivity.
  - intros d. discriminate.
Defined.

Lemma envelope_without_value_witness :
  PaybackActivator.process_results Scenario.mixed "A" "A1"
    (PDict {[ "id" := PInt 7; "result" := PDict {[ "result" := PDict ∅ ]} ]}) []
  = (Ok (PaybackActivator.failure_outcome "A" "A1" (PStr "Unknown error")),
     [Log ERROR "Activation failed for A: Unknown error"]).
Proof.
  destruct (envelope_without_value Scenario.mixed "A" "A1"
              {[ "id" := PInt 7; "result" := PDict {[ "result" := PDict ∅ ]} ]}
              {[ "result" := PDict ∅ ]} [])
    as [_ Hprocess].
  - reflexivity.
  - right. exists ∅. split; reflexivity.
  - apply Hprocess. reflexivity.
Defined.

(** ** Errors of the browser during the loop *)

Section TransportErrors.
Context (E : environment).

(** An exception of the browser while the value of a merchant is
    retrieved (the navigation, the debug screenshot, one of the three
    scripts) is not turned into an outcome: the loop raises it at once,
    the merchants that follow are not visited, and lines 661-759 return
    no summary. *)
Theorem transport_error_aborts_batch self pre m rest acc t acc1 t1 e t2 :
  PaybackActivator.process_merchants E self pre acc t = (Ok acc1, t1) →
  has_partner_id m = true →
  PaybackActivator.retrieve_results E self (PaybackActivator.name_of m)
    (PaybackActivator.partner_id_of m) t1 = (Raise e, t2) →
  PaybackActivator.process_merchants E self (pre ++ m :: rest) acc t
    = (Raise e, t2) ∧
  (acc = {| PaybackActivator.activation_results := [];
            PaybackActivator.successful := [];
            PaybackActivator.failed := [] |} →
   PaybackActivator.activation_workflow E self (pre ++ m :: rest) t
     = (Raise e, t2)).
Proof.
  intros Hpre Hpid Hretrieve.
  assert (PaybackActivator.process_merchants E self (pre ++ m :: rest) acc t
          = (Raise e, t2)) as Hloop.
  { rewrite (process_merchants_after _ _ _ _ _ _ _ _ Hpre).
    cbn [PaybackActivator.process_merchants].
    fold (has_partner_id m). rewrite Hpid. cbn [negb].
    unfold PaybackActivator.activate_coupons_for_partner.
    rewrite bind_assoc. by rewrite (bind_fail _ _ _ _ _ Hretrieve). }
  split; [exact Hloop | ]. intros ->.
  unfold PaybackActivator.activation_workflow, PaybackActivator.tally.
  rewrite bind_assoc. by rewrite (bind_fail _ _ _ _ _ Hloop).
Qed.

(** ** The totals *)




End TransportErrors.

Lemma transport_error_witness :
  let self := Scenario.activator Scenario.two_merchants in
  let init := Scenario.no_outcomes in
  let t1 := (PaybackActivator.process_merchants Cases.flaky self
               [Scenario.merchant_A] init []).2 in
  PaybackActivator.process_merchants Cases.flaky self
    [Scenario.merchant_A; {[ "name" := "B"; "partner_id" := "B2" ]}] init []
  = (Raise "Connection closed",
     t1 ++ [Log INFO "Activating coupons for B (ID: B2)...";
            GoTo "https://www.payback.de/coupons?partnerId=B2"]) ∧
  (PaybackActivator.run Cases.flaky self []).1 = Raise "Connection closed".
Proof.
  intros self init t1.
  split; [ | vm_compute; reflexivity].
  apply (transport_error_aborts_batch Cases.flaky self [Scenario.merchant_A]
           {[ "name" := "B"; "partner_id" := "B2" ]} [] init []
           {| PaybackActivator.activation_results := [Scenario.outcome_A];
              PaybackActivator.successful := [Scenario.outcome_A];
              PaybackActivator.failed := [] |} t1).
  - vm_compute. reflexivity.
  - reflexivity.
  - vm_compute. reflexivity.
Defined.

(** The page of merchant B reports a count as a string: the merchant is
    recorded as a success, and the summary then raises [TypeError]. *)
Example string_count_breaks_summary :
  (PaybackActivator.process_results Cases.odd_payloads "B" "B2"
     (PStr Cases.text_count_as_string) []).1
  = Ok (PaybackActivator.success_outcome "B" "B2"
          {[ "success" := PBool true; "activated" := PStr "3";
             "total" := PInt 5 ]}) ∧
  (PaybackActivator.run Cases.odd_payloads
     (Scenario.activator Scenario.two_merchants) []).1
  = Raise "unsupported operand type(s) for +=: 'int' and 'str'".
Proof. split; vm_compute; reflexivity. Qed.

(** ** The calls that a run can make *)

Lemma only_calls_mono {A} (P Q : call → bool) (m : M A) :
  (∀ c, P c = true → Q c = true) → only_calls P m → only_calls Q m.
Proof.
  intros HPQ Hm t. destruct (Hm t) as (ext & Ht & Hext).
  exists ext. split; [exact Ht | ].
  apply forallb_forall. intros c Hc. apply HPQ.
  by apply (proj1 (forallb_forall P ext) Hext).
Qed.

Lemma prefix_app (p s : string) : String.prefix p (p +:+ s) = true.
Proof.
  induction p as [|c p IH]; [by destruct s | ].
  change (String c p +:+ s) with (String c (p +:+ s)).
  cbn [String.prefix]. destruct (Ascii.ascii_dec c c); [exact IH | done].
Qed.

(** Like [only_calls_tac], for predicates that compare strings. *)
Ltac calls_tac :=
  repeat first
    [ apply only_calls_bind; [ | intros ? ]
    | apply only_calls_try_except; [ | intros ? ]
    | apply only_calls_ret
    | apply only_calls_raise
    | apply only_calls_lift
    | apply only_calls_now
    | apply only_calls_request;
      first [ reflexivity | cbn; apply String.eqb_refl | apply prefix_app ]
    | apply only_calls_emit; reflexivity ].

Section Calls.
Context (E : environment) (self : PaybackActivator.t).

Lemma only_calls_log P lvl msg : passes_logs P → only_calls P (log lvl msg).
Proof. intros [Hlog _]. apply only_calls_emit, Hlog. Qed.

Lemma only_calls_sleep P n : passes_logs P → only_calls P (sleep n).
Proof. intros [_ Hsleep]. apply only_calls_emit, Hsleep. Qed.

Lemma process_results_calls P name pid v :
  passes_logs P → only_calls P (PaybackActivator.process_results E name pid v).
Proof.
  intros [Hlog _] t.
  destruct (process_results_total E name pid v t)
    as (o & lvl & msg & -> & _).
  exists [Log lvl msg]. cbn. by rewrite Hlog.
Qed.

Lemma summarize_calls P rs : ∀ a b,
  passes_logs P → only_calls P (PaybackActivator.summarize E rs a b).
Proof.
  induction rs as [|r rs IH]; intros a b HP; [apply only_calls_ret | ].
  cbn [PaybackActivator.summarize].
  destruct (PaybackActivator.succeeded r).
  - apply only_calls_bind; [apply only_calls_lift | intros a'].
    apply only_calls_bind; [apply only_calls_lift | intros b'].
    apply only_calls_bind; [ | intros _; by apply IH].
    destruct (truthy _); by apply only_calls_log.
  - apply only_calls_bind; [by apply only_calls_log | intros _; by apply IH].
Qed.

Lemma session_call_logs : passes_logs (session_call self).
Proof. by split. Qed.

Lemma retrieve_results_calls name pid :
  only_calls (session_call self)
    (PaybackActivator.retrieve_results E self name pid).
Proof.
  unfold PaybackActivator.retrieve_results, log, sleep.
  destruct (PaybackActivator.debug_mode self
            || PaybackActivator.is_github_actions self) eqn:Hflag.
  - calls_tac. apply only_calls_request. unfold session_call.
    rewrite Hflag. apply prefix_app.
  - calls_tac.
Qed.

Lemma process_merchants_calls ms : ∀ acc,
  only_calls (session_call self)
    (PaybackActivator.process_merchants E self ms acc).
Proof.
  induction ms as [|m ms IH]; intros acc; [apply only_calls_ret | ].
  cbn [PaybackActivator.process_merchants].
  destruct (negb _).
  - apply only_calls_bind; [ | intros _; apply IH].
    apply only_calls_log, session_call_logs.
  - apply only_calls_bind; [ | intros o].
    + unfold PaybackActivator.activate_coupons_for_partner.
      apply only_calls_bind; [apply retrieve_results_calls | intros v].
      apply process_results_calls, session_call_logs.
    + apply only_calls_bind; [ | intros _; apply IH].
      apply only_calls_sleep, session_call_logs.
Qed.

Lemma capture_evidence_calls :
  only_calls (session_call self) (PaybackActivator.capture_evidence E).
Proof.
  intros t.
  unfold PaybackActivator.capture_evidence, PaybackActivator.fetch_evidence,
    PaybackActivator.save_html, try_except.
  repeat first
    [ progress msimpl
    | rewrite request_eq;
      match goal with
      | |- context [respond ?E0 ?t0 ?c] => destruct (respond E0 t0 c)
      end ];
    cbn [snd]; rewrite <- ?app_assoc;
    (eexists; split; [reflexivity | ]);
    cbn [app forallb session_call fst snd]; rewrite ?prefix_app; reflexivity.
Qed.

Lemma session_calls ms :
  only_calls (session_call self) (PaybackActivator.session E self ms).
Proof.
  unfold PaybackActivator.session.
  apply only_calls_bind; [ | intros _].
  { unfold PaybackActivator.login_steps,
      PaybackActivator.handle_cookie_consent, log, sleep.
    calls_tac. }
  apply only_calls_bind; [ | intros aborted].
  { unfold PaybackActivator.check_login_status, log, sleep. calls_tac. }
  destruct aborted as [early|]; [apply only_calls_ret | ].
  unfold PaybackActivator.activation_workflow.
  apply only_calls_bind; [ | intros tallied].
  { unfold PaybackActivator.tally.
    apply only_calls_bind; [apply process_merchants_calls | intros acc].
    apply only_calls_bind;
      [apply only_calls_log, session_call_logs | intros _].
    apply only_calls_bind;
      [apply summarize_calls, session_call_logs | intros totals].
    unfold log. calls_tac. }
  apply only_calls_bind; [apply capture_evidence_calls | intros paths].
  apply only_calls_ret.
Qed.

Lemma with_chrome_calls {A} P opts (body : M A) :
  P (ChromeEnter opts) = true → P ChromeExit = true →
  only_calls P body → only_calls P (PaybackActivator.with_chrome E opts body).
Proof.
  intros Henter Hexit Hbody t. unfold PaybackActivator.with_chrome.
  rewrite request_eq.
  destruct (respond E t (ChromeEnter opts)).
  - destruct (Hbody (t ++ [ChromeEnter opts])) as (ext & Ht & Hext).
    destruct (body (t ++ [ChromeEnter opts])) as [r t2].
    cbn [snd] in Ht. subst t2. rewrite request_eq.
    exists ([ChromeEnter opts] ++ ext ++ [ChromeExit]).
    split.
    + destruct (respond E _ ChromeExit); cbn [snd];
        by rewrite <- !app_assoc.
    + rewrite !forallb_app, Hext. cbn. by rewrite Henter, Hexit.
  - exists [ChromeEnter opts]. cbn. by rewrite Henter.
Qed.

Lemma run_calls : only_calls (run_call self) (PaybackActivator.run E self).
Proof.
  unfold PaybackActivator.run.
  destruct (default [] _) as [|m ms].
  - unfold log. calls_tac.
  - apply only_calls_bind; [ | intros opts].
    + unfold PaybackActivator.prepare, PaybackActivator.browser_options, log.
      apply only_calls_bind; [calls_tac | intros _].
      destruct (_ && _); calls_tac.
    + apply with_chrome_calls; [done | done | ].
      apply (only_calls_mono (session_call self)); [ | apply session_calls].
      by intros [].
Qed.

End Calls.
